(** * DroneDB: flight logs and detections over SQLite

    A shallow embedding of [db_telemetry/src/db.py].  The class [DroneDB]
    keeps no state of its own besides the path of the database file, so the
    state of the program is the content of that file: two tables with an
    AUTOINCREMENT primary key each.  Every method opens a connection, runs one
    statement, commits and closes; methods are modelled as computations in a
    state-and-exception monad over the file content, and the connection as a
    local value holding the uncommitted view.

    Two libraries sit under the code and are modelled from their documented
    behaviour:
    - [sqlite3]: tables as lists of rows in rowid order, with the
      [sqlite_sequence] counter that AUTOINCREMENT maintains.  Integers are
      unbounded ([Z]), as Python's are; the 64-bit range of an SQLite INTEGER
      (the rowid ceiling, the range of a bound parameter) and disk failures
      are outside the model.
    - [json]: [json.dumps] with its default separators and ASCII escaping, and
      [json.loads] with the grammar of [json.decoder] and [json.scanner], both
      at the level of the text stored in the [telemetry_data] column.  The
      codec covers the shape the method signature gives ([Dict[str, List]])
      with scalar list elements.

    Python [str] is [string] (code points below 256), Python [int] is [Z],
    and Python [float] is abstract: see [PyFloatRepr]. *)

From Stdlib Require Import ZArith NArith List String Ascii Bool Lia.
From Stdlib Require Import Decimal DecimalString DecimalN DecimalZ DecimalPos DecimalFacts.
From Stdlib Require Import Sorted.
Import ListNotations.
Local Open Scope string_scope.

Set Implicit Arguments.

(** ** Exceptions and the state-and-exception monad *)

Inductive exn : Type :=
| TypeError        (* json.dumps: Object of type ... is not JSON serializable *)
| JSONDecodeError. (* json.loads: the text is not a JSON document *)

Inductive result (A : Type) : Type :=
| Ok (a : A)
| Raise (e : exn).

Arguments Ok {A} a.
Arguments Raise {A} e.

Definition result_bind {A B} (r : result A) (k : A -> result B) : result B :=
  match r with
  | Ok a => k a
  | Raise e => Raise e
  end.

Fixpoint result_map {A B} (f : A -> result B) (l : list A) : result (list B) :=
  match l with
  | [] => Ok []
  | a :: l' =>
      result_bind (f a) (fun b =>
      result_bind (result_map f l') (fun bs => Ok (b :: bs)))
  end.

(** A computation over a store [S]: it returns or raises, and leaves the
    store as it was at that point.  An exception raised by a step ends the
    computation: the steps after it do not run. *)
Definition M (S A : Type) : Type := S -> result A * S.

Definition ret {S A} (a : A) : M S A := fun s => (Ok a, s).

Definition bind {S A B} (c : M S A) (k : A -> M S B) : M S B :=
  fun s =>
    match c s with
    | (Ok a, s') => k a s'
    | (Raise e, s') => (Raise e, s')
    end.

Definition lift {S A} (r : result A) : M S A := fun s => (r, s).

Declare Scope py_scope.
Delimit Scope py_scope with py.
Notation "x <- c ;; k" := (bind c (fun x => k))
  (at level 61, c at next level, right associativity) : py_scope.
Notation "c ;; k" := (bind c (fun _ => k))
  (at level 61, right associativity) : py_scope.

(** ** Characters and strings of the JSON text *)

Definition chr (n : nat) : ascii := ascii_of_nat n.

Definition QUOTE : ascii := Eval cbv in chr 34.
Definition BACKSLASH : ascii := Eval cbv in chr 92.
Definition BACKSPACE : ascii := Eval cbv in chr 8.
Definition FORMFEED : ascii := Eval cbv in chr 12.
Definition NEWLINE : ascii := Eval cbv in chr 10.
Definition RETURN : ascii := Eval cbv in chr 13.
Definition TAB : ascii := Eval cbv in chr 9.

Definition is_digit (c : ascii) : bool :=
  match c with
  | "0" | "1" | "2" | "3" | "4" | "5" | "6" | "7" | "8" | "9" => true
  | _ => false
  end%char.

(** [WHITESPACE_STR = ' \t\n\r'] of json.decoder. *)
Definition is_ws (c : ascii) : bool :=
  (c =? " ")%char || (c =? TAB)%char || (c =? NEWLINE)%char || (c =? RETURN)%char.

Fixpoint skip_ws (s : string) : string :=
  match s with
  | String c s' => if is_ws c then skip_ws s' else s
  | EmptyString => s
  end.

(** [s.startswith(p)], returning what follows the prefix. *)
Fixpoint strip_prefix (p s : string) : option string :=
  match p, s with
  | EmptyString, _ => Some s
  | String a p', String b s' => if (a =? b)%char then strip_prefix p' s' else None
  | String _ _, EmptyString => None
  end.

(** The longest run of decimal digits at the head of [s], and the rest. *)
Fixpoint span_digits (s : string) : string * string :=
  match s with
  | String c s' =>
      if is_digit c then let (ds, r) := span_digits s' in (String c ds, r)
      else (EmptyString, s)
  | EmptyString => (EmptyString, EmptyString)
  end.

Fixpoint join (sep : string) (l : list string) : string :=
  match l with
  | [] => EmptyString
  | [x] => x
  | x :: l' => x ++ sep ++ join sep l'
  end.

(** *** String literals: [encode_basestring_ascii] and [scanstring] *)

Definition hex_digit (n : N) : ascii :=
  match n with
  | 0 => "0" | 1 => "1" | 2 => "2" | 3 => "3" | 4 => "4" | 5 => "5"
  | 6 => "6" | 7 => "7" | 8 => "8" | 9 => "9" | 10 => "a" | 11 => "b"
  | 12 => "c" | 13 => "d" | 14 => "e" | _ => "f"
  end%N%char.

(** The value of a hexadecimal digit, in either case. *)
Definition hex_value (c : ascii) : option N :=
  let n := N_of_ascii c in
  if ((48 <=? n) && (n <=? 57))%N then Some (n - 48)%N
  else if ((97 <=? n) && (n <=? 102))%N then Some (n - 87)%N
  else if ((65 <=? n) && (n <=? 70))%N then Some (n - 55)%N
  else None.

(** ['\\u{0:04x}'.format(n)] for a code point below 256. *)
Definition escape_u (c : ascii) : string :=
  let n := N_of_ascii c in
  String BACKSLASH (String "u" (String "0" (String "0"
    (String (hex_digit (n / 16)) (String (hex_digit (n mod 16)) EmptyString))))).

(** [ESCAPE_DCT] first, then the characters of [' '..'~'] as they are, then
    the [\uXXXX] form for everything else. *)
Definition escape_char (c : ascii) : string :=
  if (c =? BACKSLASH)%char then String BACKSLASH (String BACKSLASH EmptyString)
  else if (c =? QUOTE)%char then String BACKSLASH (String QUOTE EmptyString)
  else if (c =? BACKSPACE)%char then String BACKSLASH "b"
  else if (c =? FORMFEED)%char then String BACKSLASH "f"
  else if (c =? NEWLINE)%char then String BACKSLASH "n"
  else if (c =? RETURN)%char then String BACKSLASH "r"
  else if (c =? TAB)%char then String BACKSLASH "t"
  else if ((32 <=? N_of_ascii c) && (N_of_ascii c <=? 126))%N then String c EmptyString
  else escape_u c.

Fixpoint escape_string (s : string) : string :=
  match s with
  | EmptyString => EmptyString
  | String c s' => escape_char c ++ escape_string s'
  end.

Definition encode_basestring_ascii (s : string) : string :=
  String QUOTE (escape_string s ++ String QUOTE EmptyString).

(** [BACKSLASH] table of json.decoder. *)
Definition unescape (esc : ascii) : option ascii :=
  if (esc =? QUOTE)%char then Some QUOTE
  else if (esc =? BACKSLASH)%char then Some BACKSLASH
  else if (esc =? "/")%char then Some "/"%char
  else if (esc =? "b")%char then Some BACKSPACE
  else if (esc =? "f")%char then Some FORMFEED
  else if (esc =? "n")%char then Some NEWLINE
  else if (esc =? "r")%char then Some RETURN
  else if (esc =? "t")%char then Some TAB
  else None.

Definition decode_hex4 (h1 h2 h3 h4 : ascii) : option N :=
  match hex_value h1, hex_value h2, hex_value h3, hex_value h4 with
  | Some a, Some b, Some c, Some d => Some (((a * 16 + b) * 16 + c) * 16 + d)%N
  | _, _, _, _ => None
  end.

Definition cons_chunk (c : ascii) (r : option (string * string))
  : option (string * string) :=
  match r with
  | Some (s, rest) => Some (String c s, rest)
  | None => None
  end.

(** [scanstring(s, end, strict=True)], called just after the opening quote:
    the decoded content and the text after the closing quote.  A code point
    of 256 or more has no counterpart in [string] and is refused. *)
Fixpoint py_scanstring (s : string) : option (string * string) :=
  match s with
  | EmptyString => None
  | String c s1 =>
      if (c =? QUOTE)%char then Some (EmptyString, s1)
      else if (c =? BACKSLASH)%char then
        match s1 with
        | EmptyString => None
        | String esc s2 =>
            if (esc =? "u")%char then
              match s2 with
              | String h1 (String h2 (String h3 (String h4 s3))) =>
                  match decode_hex4 h1 h2 h3 h4 with
                  | Some n =>
                      if (n <? 256)%N
                      then cons_chunk (ascii_of_N n) (py_scanstring s3)
                      else None
                  | None => None
                  end
              | _ => None
              end
            else
              match unescape esc with
              | Some ch => cons_chunk ch (py_scanstring s2)
              | None => None
              end
        end
      else if (N_of_ascii c <? 32)%N then None
      else cons_chunk c (py_scanstring s1)
  end.

(** *** Numbers *)

(** [int.__repr__]. *)
Definition int_repr (z : Z) : string := NilZero.string_of_int (Z.to_int z).

(** [int(text)] on a text the number pattern matched. *)
Definition parse_int (text : string) : option Z :=
  option_map Z.of_int (NilZero.int_of_string text).

(** The integer group of [NUMBER_RE]: an optional minus sign, then a single
    zero or a non-zero digit followed by any digits. *)
Definition scan_integer (s : string) : option (string * string) :=
  let (sign, s1) :=
    match s with
    | String "-" t => ("-", t)
    | _ => (EmptyString, s)
    end in
  match s1 with
  | String c s2 =>
      if (c =? "0")%char then Some (sign ++ "0", s2)
      else if is_digit c then
        let (ds, r) := span_digits s2 in Some (sign ++ String c ds, r)
      else None
  | EmptyString => None
  end.

(** The fraction group: a dot and at least one digit, or nothing. *)
Definition scan_frac (s : string) : string * string :=
  match s with
  | String "." s1 =>
      match span_digits s1 with
      | (EmptyString, _) => (EmptyString, s)
      | (ds, r) => (String "." ds, r)
      end
  | _ => (EmptyString, s)
  end.

(** The exponent group: e or E, an optional sign and at least one digit, or
    nothing. *)
Definition scan_exp (s : string) : string * string :=
  match s with
  | String c s1 =>
      if (c =? "e")%char || (c =? "E")%char then
        let (sign, s2) :=
          match s1 with
          | String "+" t => ("+", t)
          | String "-" t => ("-", t)
          | _ => (EmptyString, s1)
          end in
        match span_digits s2 with
        | (EmptyString, _) => (EmptyString, s)
        | (ds, r) => (String c (sign ++ ds), r)
        end
      else (EmptyString, s)
  | EmptyString => (EmptyString, s)
  end.

(** [NUMBER_RE.match]: the groups (integer, frac, exp) and the text after
    the match. *)
Definition match_number (s : string) : option (string * string * string * string) :=
  match scan_integer s with
  | Some (integer, s1) =>
      let (frac, s2) := scan_frac s1 in
      let (exp, s3) := scan_exp s2 in
      Some (integer, frac, exp, s3)
  | None => None
  end.

(** *** Positions in the text *)

(** No digit follows. *)
Definition no_digit_ahead (s : string) : bool :=
  match s with
  | String c _ => negb (is_digit c)
  | EmptyString => true
  end.

(** Nothing that could continue a number follows: no digit, no dot and no
    exponent mark. *)
Definition ends_number (s : string) : bool :=
  match s with
  | String c _ =>
      negb (is_digit c || (c =? ".")%char || (c =? "e")%char || (c =? "E")%char)
  | EmptyString => true
  end.

Definition starts_number (s : string) : bool :=
  match s with
  | String c _ => is_digit c || (c =? "-")%char
  | EmptyString => false
  end.

(** What follows a list element: a comma or the closing bracket. *)
Definition at_delimiter (s : string) : bool :=
  match s with
  | String c _ => (c =? ",")%char || (c =? "]")%char
  | EmptyString => false
  end.

(** What follows the first chunk of a joined text. *)
Definition after_first (sep : string) (chunks : list string) (rest : string) : string :=
  match chunks with
  | [] => rest
  | _ :: _ => sep ++ join sep chunks ++ rest
  end.

(** *** Floats

    A Python [float] is an IEEE binary64 value.  What the code relies on is
    its text form: [float.__repr__] writes a finite float as a decimal
    literal with a fraction or an exponent, and [float] reads that literal
    back as the same value.  The finite values are a parameter with exactly
    this interface. *)

Inductive pyfloat (F : Type) : Type :=
| FNaN
| FInf
| FNegInf
| FFinite (x : F).

Arguments FNaN {F}.
Arguments FInf {F}.
Arguments FNegInf {F}.
Arguments FFinite {F} x.

(** [-12.5e-07] is [{| lit_neg := true; lit_int := 12; lit_frac := D5 Nil;
    lit_exp := Some (true, D0 (D7 Nil)) |}]. *)
Record float_literal : Type := {
  lit_neg : bool;
  lit_int : N;
  lit_frac : uint;
  lit_exp : option (bool * uint)
}.

Definition uint_is_nil (d : uint) : bool :=
  match d with
  | Nil => true
  | _ => false
  end.

Definition literal_ok (l : float_literal) : bool :=
  match lit_exp l with
  | Some (_, e) => negb (uint_is_nil e)
  | None => negb (uint_is_nil (lit_frac l))
  end.

Definition literal_integer (l : float_literal) : string :=
  (if lit_neg l then "-" else EmptyString) ++ NilEmpty.string_of_uint (N.to_uint (lit_int l)).

Definition literal_frac (l : float_literal) : string :=
  match lit_frac l with
  | Nil => EmptyString
  | d => String "." (NilEmpty.string_of_uint d)
  end.

Definition literal_exp (l : float_literal) : string :=
  match lit_exp l with
  | None => EmptyString
  | Some (neg, e) =>
      String "e" ((if neg : bool then "-" else "+") ++ NilEmpty.string_of_uint e)
  end.

Definition literal_text (l : float_literal) : string :=
  literal_integer l ++ literal_frac l ++ literal_exp l.

Class PyFloatRepr : Type := {
  finfloat : Type;
  (** [float.__repr__] of a finite float *)
  float_repr : finfloat -> float_literal;
  float_repr_ok : forall x, literal_ok (float_repr x) = true;
  (** [float(text)] *)
  float_of_str : string -> pyfloat finfloat;
  float_of_repr : forall x, float_of_str (literal_text (float_repr x)) = FFinite x
}.

(** ** Python values and the JSON codec *)

Section Json.

Context `{PyFloatRepr}.

(** The values a telemetry list may hold.  [PyObject] stands for any object
    [json] has no encoding for (a set, bytes, a complex number, an instance
    of a user class), with the name of its type. *)
Inductive pyval : Type :=
| PyNone
| PyBool (b : bool)
| PyInt (z : Z)
| PyFloat (f : pyfloat finfloat)
| PyStr (s : string)
| PyObject (type_name : string).

(** A [dict] keeps its items in insertion order and has no two items with
    the same key. *)
Definition pydict (V : Type) : Type := list (string * V).

Definition telemetry : Type := pydict (list pyval).

Fixpoint dict_set {V} (d : pydict V) (k : string) (v : V) : pydict V :=
  match d with
  | [] => [(k, v)]
  | (k', v') :: d' =>
      if (k' =? k)%string then (k', v) :: d' else (k', v') :: dict_set d' k v
  end.

(** [dict(pairs)] *)
Definition dict {V} (pairs : list (string * V)) : pydict V :=
  fold_left (fun d kv => dict_set d (fst kv) (snd kv)) pairs [].

(** *** json.dumps *)

(** [floatstr] of json.encoder, with [allow_nan=True]. *)
Definition floatstr (o : pyfloat finfloat) : string :=
  match o with
  | FNaN => "NaN"
  | FInf => "Infinity"
  | FNegInf => "-Infinity"
  | FFinite x => literal_text (float_repr x)
  end.

(** One element of a list, in the order the encoder tests it: [str],
    [None], [True], [False], [int], [float]; anything else goes to
    [default], which raises. *)
Definition encode_value (o : pyval) : result string :=
  match o with
  | PyStr s => Ok (encode_basestring_ascii s)
  | PyNone => Ok "null"
  | PyBool true => Ok "true"
  | PyBool false => Ok "false"
  | PyInt z => Ok (int_repr z)
  | PyFloat f => Ok (floatstr f)
  | PyObject _ => Raise TypeError
  end.

Definition encode_list (lst : list pyval) : result string :=
  result_bind (result_map encode_value lst) (fun chunks =>
  Ok ("[" ++ join ", " chunks ++ "]")).

Definition encode_item (kv : string * list pyval) : result string :=
  result_bind (encode_list (snd kv)) (fun v =>
  Ok (encode_basestring_ascii (fst kv) ++ ": " ++ v)).

Definition json_dumps (obj : telemetry) : result string :=
  result_bind (result_map encode_item obj) (fun chunks =>
  Ok ("{" ++ join ", " chunks ++ "}")).

(** *** json.loads *)

Definition is_empty (s : string) : bool :=
  match s with
  | EmptyString => true
  | String _ _ => false
  end.

(** [scan_once] at a position that holds a scalar.  A list or an object at
    this position is outside the telemetry shape and is refused. *)
Definition scan_once (s : string) : option (pyval * string) :=
  match s with
  | EmptyString => None
  | String nextchar s1 =>
      if (nextchar =? QUOTE)%char then
        match py_scanstring s1 with
        | Some (str, r) => Some (PyStr str, r)
        | None => None
        end
      else if (nextchar =? "{")%char || (nextchar =? "[")%char then None
      else
        match strip_prefix "null" s with
        | Some r => Some (PyNone, r)
        | None =>
        match strip_prefix "true" s with
        | Some r => Some (PyBool true, r)
        | None =>
        match strip_prefix "false" s with
        | Some r => Some (PyBool false, r)
        | None =>
        match match_number s with
        | Some (integer, frac, exp, r) =>
            if is_empty frac && is_empty exp
            then option_map (fun z => (PyInt z, r)) (parse_int integer)
            else Some (PyFloat (float_of_str (integer ++ frac ++ exp)), r)
        | None =>
        match strip_prefix "NaN" s with
        | Some r => Some (PyFloat FNaN, r)
        | None =>
        match strip_prefix "Infinity" s with
        | Some r => Some (PyFloat FInf, r)
        | None =>
        match strip_prefix "-Infinity" s with
        | Some r => Some (PyFloat FNegInf, r)
        | None => None
        end end end end end end end
  end.

(** The loop of [JSONArray]: a value, then a closing bracket or a comma and
    the next value.  Each round consumes text, so the length of the text is
    fuel enough. *)
Fixpoint array_items (fuel : nat) (s : string) : option (list pyval * string) :=
  match fuel with
  | O => None
  | S fuel' =>
      match scan_once s with
      | None => None
      | Some (value, s1) =>
          match skip_ws s1 with
          | EmptyString => None
          | String nextchar s2 =>
              if (nextchar =? "]")%char then Some ([value], s2)
              else if (nextchar =? ",")%char then
                match array_items fuel' (skip_ws s2) with
                | Some (values, r) => Some (value :: values, r)
                | None => None
                end
              else None
          end
      end
  end.

(** [JSONArray], called just after the opening bracket. *)
Definition JSONArray (fuel : nat) (s : string) : option (list pyval * string) :=
  match skip_ws s with
  | EmptyString => None
  | String nextchar s1 =>
      if (nextchar =? "]")%char then Some ([], s1)
      else array_items fuel (String nextchar s1)
  end.

(** The loop of [JSONObject], called just after the opening quote of a key:
    the key, a colon, the value (a list), then a closing brace or a comma
    and the next key. *)
Fixpoint object_items (fuel : nat) (s : string)
  : option (list (string * list pyval) * string) :=
  match fuel with
  | O => None
  | S fuel' =>
      match py_scanstring s with
      | None => None
      | Some (key, s1) =>
          match skip_ws s1 with
          | EmptyString => None
          | String colon s2 =>
              if negb (colon =? ":")%char then None
              else
                match skip_ws s2 with
                | EmptyString => None
                | String bracket s3 =>
                    if negb (bracket =? "[")%char then None
                    else
                      match JSONArray fuel s3 with
                      | None => None
                      | Some (value, s4) =>
                          match skip_ws s4 with
                          | EmptyString => None
                          | String nextchar s5 =>
                              if (nextchar =? "}")%char then Some ([(key, value)], s5)
                              else if (nextchar =? ",")%char then
                                match skip_ws s5 with
                                | EmptyString => None
                                | String q s6 =>
                                    if negb (q =? QUOTE)%char then None
                                    else
                                      match object_items fuel' s6 with
                                      | Some (pairs, r) => Some ((key, value) :: pairs, r)
                                      | None => None
                                      end
                                end
                              else None
                          end
                      end
                end
          end
      end
  end.

(** [JSONObject], called just after the opening brace. *)
Definition JSONObject (fuel : nat) (s : string)
  : option (list (string * list pyval) * string) :=
  match skip_ws s with
  | EmptyString => None
  | String nextchar s1 =>
      if (nextchar =? "}")%char then Some ([], s1)
      else if (nextchar =? QUOTE)%char then object_items fuel s1
      else None
  end.

(** [JSONDecoder.decode]: leading whitespace, one document (here an
    object), trailing whitespace, and nothing after it. *)
Definition json_loads (s : string) : result telemetry :=
  match skip_ws s with
  | EmptyString => Raise JSONDecodeError
  | String nextchar s1 =>
      if negb (nextchar =? "{")%char then Raise JSONDecodeError
      else
        match JSONObject (String.length s) s1 with
        | Some (pairs, r) =>
            if is_empty (skip_ws r) then Ok (dict pairs) else Raise JSONDecodeError
        | None => Raise JSONDecodeError
        end
  end.

End Json.

(** ** SQLite: a table with an INTEGER PRIMARY KEY AUTOINCREMENT *)

Section Sqlite.

Variable R : Type.
Variable rowid : R -> Z.

(** The rows in rowid order, which is the order a SELECT without ORDER BY
    returns them in, and the largest rowid the table has ever held, as
    [sqlite_sequence] records it. *)
Record table : Type := {
  rows : list R;
  sqlite_sequence : Z
}.

Definition empty_table : table := {| rows := []; sqlite_sequence := 0 |}.

Definition max_rowid (l : list R) : Z :=
  fold_right (fun r m => Z.max (rowid r) m) 0%Z l.

(** INSERT without an explicit id: the new rowid is one more than the
    largest rowid that has ever existed in the table. *)
Definition sql_insert (mk : Z -> R) (t : table) : table * Z :=
  let v := (Z.max (max_rowid (rows t)) (sqlite_sequence t) + 1)%Z in
  ({| rows := (rows t ++ [mk v])%list; sqlite_sequence := v |}, v).

Definition where_id (id : Z) (r : R) : bool := (rowid r =? id)%Z.

Definition sql_select (id : Z) (t : table) : list R :=
  filter (where_id id) (rows t).

(** DELETE and UPDATE return the table and the number of rows they
    touched. *)
Definition sql_delete (id : Z) (t : table) : table * Z :=
  ({| rows := filter (fun r => negb (where_id id r)) (rows t);
      sqlite_sequence := sqlite_sequence t |},
   Z.of_nat (List.length (filter (where_id id) (rows t)))).

Definition sql_update (id : Z) (set : R -> R) (t : table) : table * Z :=
  ({| rows := map (fun r => if where_id id r then set r else r) (rows t);
      sqlite_sequence := sqlite_sequence t |},
   Z.of_nat (List.length (filter (where_id id) (rows t)))).

(** PRIMARY KEY: no two rows share an id. *)
Definition primary_key (t : table) : Prop := NoDup (map rowid (rows t)).


(** What a cursor holds after [execute]. *)
Record cursor : Type := {
  lastrowid : Z;
  rowcount : Z;
  fetchall : list R
}.

Definition fetchone (c : cursor) : option R := hd_error (fetchall c).

End Sqlite.

Arguments empty_table {R}.

(** ** The database file and the class [DroneDB] *)

Section DroneDB.

Context `{PyFloatRepr}.

(** [flight_logs(id, timestamp TEXT, telemetry_data TEXT)] *)
Record flight_logs_row : Type := {
  fl_id : Z;
  fl_timestamp : string;
  fl_telemetry_data : string
}.

(** [detections(id, timestamp TEXT, category TEXT, latitude REAL,
    longitude REAL, picture TEXT or NULL, bhp INTEGER, worker INTEGER,
    change INTEGER)].  The coordinates are finite floats: a REAL column
    stores them as they are. *)
Record detections_row : Type := {
  dt_id : Z;
  dt_timestamp : string;
  dt_category : string;
  dt_latitude : finfloat;
  dt_longitude : finfloat;
  dt_picture : option string;
  dt_bhp : Z;
  dt_worker : Z;
  dt_change : Z
}.

Record database : Type := {
  flight_logs : table flight_logs_row;
  detections : table detections_row
}.

(** [__init__] on a path with no file: [_create_tables] creates both tables,
    empty.  On an existing file CREATE TABLE IF NOT EXISTS changes nothing. *)
Definition new_database : database :=
  {| flight_logs := empty_table; detections := empty_table |}.

Definition _create_tables (file : option database) : database :=
  match file with
  | Some db => db
  | None => new_database
  end.

(** A connection sees the committed content of the file and its own
    changes; [commit] writes them to the file, [close] drops the
    connection. *)
Record connection : Type := { view : database }.

Definition _get_connection : M database connection :=
  fun file => (Ok {| view := file |}, file).

Definition commit (conn : connection) : M database unit :=
  fun _ => (Ok tt, view conn).

Definition close (conn : connection) : M database unit := ret tt.

(** *** The statements of the class *)

Definition on_flight_logs (conn : connection) (t : table flight_logs_row) : connection :=
  {| view := {| flight_logs := t; detections := detections (view conn) |} |}.

Definition on_detections (conn : connection) (t : table detections_row) : connection :=
  {| view := {| flight_logs := flight_logs (view conn); detections := t |} |}.

(** The row of a flight log, given the id the table assigns. *)
Definition flight_row (timestamp telemetry_json : string) (v : Z) : flight_logs_row :=
  {| fl_id := v; fl_timestamp := timestamp; fl_telemetry_data := telemetry_json |}.

(** The row of a detection, given the id the table assigns. *)
Definition detection_row (timestamp category : string) (latitude longitude : finfloat)
  (picture : option string) (bhp worker change : Z) (v : Z) : detections_row :=
  {| dt_id := v; dt_timestamp := timestamp; dt_category := category;
     dt_latitude := latitude; dt_longitude := longitude; dt_picture := picture;
     dt_bhp := bhp; dt_worker := worker; dt_change := change |}.

(** [INSERT INTO flight_logs (timestamp, telemetry_data) VALUES (?, ?)] *)
Definition INSERT_INTO_flight_logs (conn : connection) (timestamp telemetry_json : string)
  : connection * cursor flight_logs_row :=
  let (t, v) :=
    sql_insert fl_id (flight_row timestamp telemetry_json)
      (flight_logs (view conn)) in
  (on_flight_logs conn t, {| lastrowid := v; rowcount := 1; fetchall := [] |}).

(** [SELECT id, timestamp, telemetry_data FROM flight_logs WHERE id = ?] *)
Definition SELECT_flight_logs_WHERE_id (conn : connection) (log_id : Z)
  : cursor flight_logs_row :=
  {| lastrowid := 0; rowcount := -1;
     fetchall := sql_select fl_id log_id (flight_logs (view conn)) |}.

(** [SELECT id, timestamp, telemetry_data FROM flight_logs] *)
Definition SELECT_flight_logs (conn : connection) : cursor flight_logs_row :=
  {| lastrowid := 0; rowcount := -1; fetchall := rows (flight_logs (view conn)) |}.

(** [DELETE FROM flight_logs WHERE id = ?] *)
Definition DELETE_FROM_flight_logs_WHERE_id (conn : connection) (log_id : Z)
  : connection * cursor flight_logs_row :=
  let (t, n) := sql_delete fl_id log_id (flight_logs (view conn)) in
  (on_flight_logs conn t, {| lastrowid := 0; rowcount := n; fetchall := [] |}).

(** [INSERT INTO detections (timestamp, category, latitude, longitude,
    picture, bhp, worker, change) VALUES (?, ?, ?, ?, ?, ?, ?, ?)] *)
Definition INSERT_INTO_detections (conn : connection)
  (timestamp category : string) (latitude longitude : finfloat)
  (picture : option string) (bhp worker change : Z)
  : connection * cursor detections_row :=
  let (t, v) :=
    sql_insert dt_id
      (detection_row timestamp category latitude longitude picture bhp worker change)
      (detections (view conn)) in
  (on_detections conn t, {| lastrowid := v; rowcount := 1; fetchall := [] |}).

(** [SELECT id, timestamp, category, latitude, longitude, picture, bhp,
    worker, change FROM detections WHERE id = ?] *)
Definition SELECT_detections_WHERE_id (conn : connection) (detection_id : Z)
  : cursor detections_row :=
  {| lastrowid := 0; rowcount := -1;
     fetchall := sql_select dt_id detection_id (detections (view conn)) |}.

(** The same SELECT without the WHERE clause. *)
Definition SELECT_detections (conn : connection) : cursor detections_row :=
  {| lastrowid := 0; rowcount := -1; fetchall := rows (detections (view conn)) |}.

(** [UPDATE detections SET timestamp = ?, category = ?, latitude = ?,
    longitude = ?, picture = ?, bhp = ?, worker = ?, change = ?
    WHERE id = ?] *)
Definition UPDATE_detections_WHERE_id (conn : connection)
  (timestamp category : string) (latitude longitude : finfloat)
  (picture : option string) (bhp worker change : Z) (detection_id : Z)
  : connection * cursor detections_row :=
  let (t, n) :=
    sql_update dt_id detection_id
      (fun r => {| dt_id := dt_id r; dt_timestamp := timestamp;
                   dt_category := category; dt_latitude := latitude;
                   dt_longitude := longitude; dt_picture := picture;
                   dt_bhp := bhp; dt_worker := worker; dt_change := change |})
      (detections (view conn)) in
  (on_detections conn t, {| lastrowid := 0; rowcount := n; fetchall := [] |}).

(** [DELETE FROM detections WHERE id = ?] *)
Definition DELETE_FROM_detections_WHERE_id (conn : connection) (detection_id : Z)
  : connection * cursor detections_row :=
  let (t, n) := sql_delete dt_id detection_id (detections (view conn)) in
  (on_detections conn t, {| lastrowid := 0; rowcount := n; fetchall := [] |}).

(** *** The dictionaries the read methods return *)

(** [{"id": ..., "timestamp": ..., "telemetry_data": ...}] *)
Record flight_log : Type := {
  log_id : Z;
  log_timestamp : string;
  log_telemetry_data : telemetry
}.

(** [{"id": ..., "timestamp": ..., "category": ..., "latitude": ...,
    "longitude": ..., "picture": ..., "bhp": ..., "worker": ...,
    "change": ...}] *)
Record detection : Type := {
  det_id : Z;
  det_timestamp : string;
  det_category : string;
  det_latitude : finfloat;
  det_longitude : finfloat;
  det_picture : option string;
  det_bhp : bool;
  det_worker : bool;
  det_change : bool
}.

(** [bool(n)] of an integer. *)
Definition py_bool (n : Z) : bool := negb (n =? 0)%Z.

(** [1 if b else 0] *)
Definition flag (b : bool) : Z := if b then 1%Z else 0%Z.

(** [x if x is not None else y] *)
Definition if_not_None {T} (x : option T) (y : T) : T :=
  match x with
  | Some v => v
  | None => y
  end.

Definition flight_log_of_row (row : flight_logs_row) : result flight_log :=
  result_bind (json_loads (fl_telemetry_data row)) (fun telemetry_data =>
  Ok {| log_id := fl_id row;
        log_timestamp := fl_timestamp row;
        log_telemetry_data := telemetry_data |}).

Definition detection_of_row (row : detections_row) : detection :=
  {| det_id := dt_id row;
     det_timestamp := dt_timestamp row;
     det_category := dt_category row;
     det_latitude := dt_latitude row;
     det_longitude := dt_longitude row;
     det_picture := dt_picture row;
     det_bhp := py_bool (dt_bhp row);
     det_worker := py_bool (dt_worker row);
     det_change := py_bool (dt_change row) |}.

Local Open Scope py_scope.

(** *** Flight logs *)

Definition add_flight_log (timestamp : string) (telemetry_data : telemetry)
  : M database Z :=
  conn <- _get_connection ;;
  telemetry_json <- lift (json_dumps telemetry_data) ;;
  let (conn, cursor) := INSERT_INTO_flight_logs conn timestamp telemetry_json in
  let log_id := lastrowid cursor in
  commit conn ;;
  close conn ;;
  ret log_id.

Definition get_flight_log (log_id : Z) : M database (option flight_log) :=
  conn <- _get_connection ;;
  let cursor := SELECT_flight_logs_WHERE_id conn log_id in
  let result := fetchone cursor in
  close conn ;;
  match result with
  | Some result =>
      log <- lift (flight_log_of_row result) ;;
      ret (Some log)
  | None => ret None
  end.

Definition get_all_flight_logs : M database (list flight_log) :=
  conn <- _get_connection ;;
  let cursor := SELECT_flight_logs conn in
  let results := fetchall cursor in
  close conn ;;
  lift (result_map flight_log_of_row results).

Definition delete_flight_log (log_id : Z) : M database bool :=
  conn <- _get_connection ;;
  let (conn, cursor) := DELETE_FROM_flight_logs_WHERE_id conn log_id in
  let deleted := (rowcount cursor >? 0)%Z in
  commit conn ;;
  close conn ;;
  ret deleted.

(** *** Detections *)

Definition add_detection (timestamp category : string)
  (latitude longitude : finfloat) (picture : option string)
  (bhp worker change : bool) : M database Z :=
  conn <- _get_connection ;;
  let (conn, cursor) :=
    INSERT_INTO_detections conn timestamp category latitude longitude picture
      (flag bhp) (flag worker) (flag change) in
  let detection_id := lastrowid cursor in
  commit conn ;;
  close conn ;;
  ret detection_id.

Definition get_detection (detection_id : Z) : M database (option detection) :=
  conn <- _get_connection ;;
  let cursor := SELECT_detections_WHERE_id conn detection_id in
  let result := fetchone cursor in
  close conn ;;
  match result with
  | Some result => ret (Some (detection_of_row result))
  | None => ret None
  end.

Definition get_all_detections : M database (list detection) :=
  conn <- _get_connection ;;
  let cursor := SELECT_detections conn in
  let results := fetchall cursor in
  close conn ;;
  ret (map detection_of_row results).

Definition update_detection (detection_id : Z)
  (timestamp category : option string) (latitude longitude : option finfloat)
  (picture : option string) (bhp worker change : option bool) : M database bool :=
  current <- get_detection detection_id ;;
  match current with
  | None => ret false
  | Some current =>
      let new_timestamp := if_not_None timestamp (det_timestamp current) in
      let new_category := if_not_None category (det_category current) in
      let new_latitude := if_not_None latitude (det_latitude current) in
      let new_longitude := if_not_None longitude (det_longitude current) in
      let new_picture :=
        match picture with
        | Some p => Some p
        | None => det_picture current
        end in
      let new_bhp := flag (if_not_None bhp (det_bhp current)) in
      let new_worker := flag (if_not_None worker (det_worker current)) in
      let new_change := flag (if_not_None change (det_change current)) in
      conn <- _get_connection ;;
      let (conn, cursor) :=
        UPDATE_detections_WHERE_id conn new_timestamp new_category new_latitude
          new_longitude new_picture new_bhp new_worker new_change detection_id in
      let updated := (rowcount cursor >? 0)%Z in
      commit conn ;;
      close conn ;;
      ret updated
  end.

Definition delete_detection (detection_id : Z) : M database bool :=
  conn <- _get_connection ;;
  let (conn, cursor) := DELETE_FROM_detections_WHERE_id conn detection_id in
  let deleted := (rowcount cursor >? 0)%Z in
  commit conn ;;
  close conn ;;
  ret deleted.

(** *** Call sites

    Every optional parameter of [update_detection] has the default [None].
    A call either leaves the keyword out or passes a value, which may be
    [None] itself. *)

Inductive argument (T : Type) : Type :=
| omitted
| passed (v : option T).

Arguments omitted {T}.
Arguments passed {T} v.

(** The value the parameter is bound to in the body. *)
Definition parameter {T} (a : argument T) : option T :=
  match a with
  | omitted => None
  | passed v => v
  end.

Record update_arguments : Type := {
  arg_timestamp : argument string;
  arg_category : argument string;
  arg_latitude : argument finfloat;
  arg_longitude : argument finfloat;
  arg_picture : argument string;
  arg_bhp : argument bool;
  arg_worker : argument bool;
  arg_change : argument bool
}.

Definition call_update_detection (detection_id : Z) (a : update_arguments)
  : M database bool :=
  update_detection detection_id
    (parameter (arg_timestamp a)) (parameter (arg_category a))
    (parameter (arg_latitude a)) (parameter (arg_longitude a))
    (parameter (arg_picture a)) (parameter (arg_bhp a))
    (parameter (arg_worker a)) (parameter (arg_change a)).

(** *** Sequences of calls

    A client calls the methods one after the other; a call that raises is
    caught by the client and the next call sees the store the failed call
    left. *)

Inductive call : Type :=
| Call_add_flight_log (timestamp : string) (telemetry_data : telemetry)
| Call_get_flight_log (log_id : Z)
| Call_get_all_flight_logs
| Call_delete_flight_log (log_id : Z)
| Call_add_detection (timestamp category : string) (latitude longitude : finfloat)
    (picture : option string) (bhp worker change : bool)
| Call_get_detection (detection_id : Z)
| Call_get_all_detections
| Call_update_detection (detection_id : Z) (a : update_arguments)
| Call_delete_detection (detection_id : Z).

Inductive value : Type :=
| VInt (n : Z)
| VBool (b : bool)
| VLog (log : option flight_log)
| VLogs (logs : list flight_log)
| VDetection (d : option detection)
| VDetections (ds : list detection).

Definition returning {A} (wrap : A -> value) (c : M database A) : M database value :=
  x <- c ;; ret (wrap x).

Definition perform (c : call) : M database value :=
  match c with
  | Call_add_flight_log timestamp telemetry_data =>
      returning VInt (add_flight_log timestamp telemetry_data)
  | Call_get_flight_log log_id => returning VLog (get_flight_log log_id)
  | Call_get_all_flight_logs => returning VLogs get_all_flight_logs
  | Call_delete_flight_log log_id => returning VBool (delete_flight_log log_id)
  | Call_add_detection timestamp category latitude longitude picture bhp worker change =>
      returning VInt
        (add_detection timestamp category latitude longitude picture bhp worker change)
  | Call_get_detection detection_id => returning VDetection (get_detection detection_id)
  | Call_get_all_detections => returning VDetections get_all_detections
  | Call_update_detection detection_id a =>
      returning VBool (call_update_detection detection_id a)
  | Call_delete_detection detection_id =>
      returning VBool (delete_detection detection_id)
  end.

(** The calls with what each one returned or raised, and the final store. *)
Fixpoint run (calls : list call) (db : database)
  : list (call * result value) * database :=
  match calls with
  | [] => ([], db)
  | c :: calls' =>
      let (r, db1) := perform c db in
      let (trace, db2) := run calls' db1 in
      ((c, r) :: trace, db2)
  end.

Definition is_add_flight_log (c : call) : bool :=
  match c with
  | Call_add_flight_log _ _ => true
  | _ => false
  end.


(** The id an [add_flight_log] call returned. *)
Definition added_flight_log (e : call * result value) : option Z :=
  match e with
  | (Call_add_flight_log _ _, Ok (VInt n)) => Some n
  | _ => None
  end.

(** The id an [add_detection] call returned. *)
Definition added_detection (e : call * result value) : option Z :=
  match e with
  | (Call_add_detection _ _ _ _ _ _ _ _, Ok (VInt n)) => Some n
  | _ => None
  end.

Fixpoint collect {A B} (f : A -> option B) (l : list A) : list B :=
  match l with
  | [] => []
  | a :: l' =>
      match f a with
      | Some b => b :: collect f l'
      | None => collect f l'
      end
  end.

(** The ids the [add_flight_log] calls returned, in call order. *)
Definition flight_log_ids (trace : list (call * result value)) : list Z :=
  collect added_flight_log trace.

(** The ids the [add_detection] calls returned, in call order. *)
Definition detection_ids (trace : list (call * result value)) : list Z :=
  collect added_detection trace.

Definition is_flight_log_deleted (e : call * result value) : bool :=
  match e with
  | (Call_delete_flight_log _, Ok (VBool true)) => true
  | _ => false
  end.

(** The number of [delete_flight_log] calls that returned [True]. *)
Definition flight_logs_deleted (trace : list (call * result value)) : nat :=
  List.length (filter is_flight_log_deleted trace).

(** *** Valid inputs *)

(** A value [json.dumps] has an encoding for. *)
Definition serializable (o : pyval) : bool :=
  match o with
  | PyObject _ => false
  | _ => true
  end.

Definition serializable_telemetry (telemetry_data : telemetry) : bool :=
  forallb (fun kv => forallb serializable (snd kv)) telemetry_data.

(** The ids of a table are those of its rows. *)
Definition flight_log_stored (log_id : Z) (db : database) : Prop :=
  In log_id (map fl_id (rows (flight_logs db))).

Definition detection_stored (detection_id : Z) (db : database) : Prop :=
  In detection_id (map dt_id (rows (detections db))).




(** *** Vocabulary of the statements *)

(** The keys of a dictionary are pairwise different. *)
Fixpoint distinct (l : list string) : bool :=
  match l with
  | [] => true
  | k :: l' => negb (existsb (String.eqb k) l') && distinct l'
  end.


(** The record [update_detection] writes over [current]. *)
Definition merged (current : detection)
  (timestamp category : option string) (latitude longitude : option finfloat)
  (picture : option string) (bhp worker change : option bool) : detection :=
  {| det_id := det_id current;
     det_timestamp := if_not_None timestamp (det_timestamp current);
     det_category := if_not_None category (det_category current);
     det_latitude := if_not_None latitude (det_latitude current);
     det_longitude := if_not_None longitude (det_longitude current);
     det_picture := match picture with Some p => Some p | None => det_picture current end;
     det_bhp := if_not_None bhp (det_bhp current);
     det_worker := if_not_None worker (det_worker current);
     det_change := if_not_None change (det_change current) |}.

(** The row that reads back as a given record. *)
Definition row_of_detection (d : detection) : detections_row :=
  {| dt_id := det_id d; dt_timestamp := det_timestamp d; dt_category := det_category d;
     dt_latitude := det_latitude d; dt_longitude := det_longitude d;
     dt_picture := det_picture d; dt_bhp := flag (det_bhp d);
     dt_worker := flag (det_worker d); dt_change := flag (det_change d) |}.

Definition bit (n : Z) : Prop := n = 0%Z \/ n = 1%Z.

Definition flags_are_bits (row : detections_row) : Prop :=
  bit (dt_bhp row) /\ bit (dt_worker row) /\ bit (dt_change row).

(** A stored text that [json.loads] accepts. *)
Definition decodable (row : flight_logs_row) : Prop :=
  exists telemetry_data, json_loads (fl_telemetry_data row) = Ok telemetry_data.

Definition flights_sound (db : database) : Prop :=
  primary_key fl_id (flight_logs db) /\ Forall decodable (rows (flight_logs db)).

(** Two call sites that bind every parameter to the same value. *)
Definition same_binding (a a' : update_arguments) : Prop :=
  parameter (arg_timestamp a) = parameter (arg_timestamp a') /\
  parameter (arg_category a) = parameter (arg_category a') /\
  parameter (arg_latitude a) = parameter (arg_latitude a') /\
  parameter (arg_longitude a) = parameter (arg_longitude a') /\
  parameter (arg_picture a) = parameter (arg_picture a') /\
  parameter (arg_bhp a) = parameter (arg_bhp a') /\
  parameter (arg_worker a) = parameter (arg_worker a') /\
  parameter (arg_change a) = parameter (arg_change a').

Definition update_calls (updates : list (Z * update_arguments)) : list call :=
  map (fun u => Call_update_detection (fst u) (snd u)) updates.

End DroneDB.

Arguments omitted {T}.
Arguments passed {T} v.

(** ** The scenarios of the specification

    The floats that occur in the scenarios, with the text Python writes
    them as.  [float] of any other text is outside the scenarios. *)

Inductive scenario_float : Type :=
| F1_0
| F1_5
| F52_1
| F21_1
| F52_5.

Definition decimal (whole : N) (fraction : uint) : float_literal :=
  {| lit_neg := false; lit_int := whole; lit_frac := fraction; lit_exp := None |}.

Definition scenario_repr (x : scenario_float) : float_literal :=
  match x with
  | F1_0 => decimal 1 (D0 Nil)
  | F1_5 => decimal 1 (D5 Nil)
  | F52_1 => decimal 52 (D1 Nil)
  | F21_1 => decimal 21 (D1 Nil)
  | F52_5 => decimal 52 (D5 Nil)
  end.

Definition scenario_float_of_str (text : string) : pyfloat scenario_float :=
  if (text =? "1.0")%string then FFinite F1_0
  else if (text =? "1.5")%string then FFinite F1_5
  else if (text =? "52.1")%string then FFinite F52_1
  else if (text =? "21.1")%string then FFinite F21_1
  else if (text =? "52.5")%string then FFinite F52_5
  else FNaN.

#[global] Instance scenario_floats : PyFloatRepr := {|
  finfloat := scenario_float;
  float_repr := scenario_repr;
  float_repr_ok := fun x =>
    match x as y return literal_ok (scenario_repr y) = true with
    | F1_0 | F1_5 | F52_1 | F21_1 | F52_5 => eq_refl
    end;
  float_of_str := scenario_float_of_str;
  float_of_repr := fun x =>
    match x as y
      return scenario_float_of_str (literal_text (scenario_repr y)) = FFinite y with
    | F1_0 | F1_5 | F52_1 | F21_1 | F52_5 => eq_refl
    end
|}.

Definition scenario_timestamp : string := "2024-01-01T00:00:00".

Definition scenario_telemetry : telemetry :=
  [("Roll", [PyFloat (FFinite F1_0); PyFloat (FFinite F1_5)]);
   ("Armed", [PyBool true; PyBool true])].

(** A dictionary with a value that [json] cannot encode. *)
Definition unserializable_telemetry : telemetry :=
  [("Roll", [PyFloat (FFinite F1_0)]); ("Tags", [PyObject "set"])].

(** One flight log, a worker detection with a picture and a hazard
    detection without one. *)
Definition scenario_calls : list call :=
  [Call_add_flight_log scenario_timestamp scenario_telemetry;
   Call_add_detection scenario_timestamp "Worker" F52_1 F21_1
     (Some "/path/to/worker.jpg") true true false;
   Call_add_detection scenario_timestamp "Hazard" F52_5 F21_1
     None false false true].

Definition scenario_db : database :=
  Eval vm_compute in snd (run scenario_calls new_database).

(** [update_detection(2, category="Critical Hazard", bhp=False)] *)
Definition critical_hazard : update_arguments :=
  {| arg_timestamp := omitted; arg_category := passed (Some "Critical Hazard");
     arg_latitude := omitted; arg_longitude := omitted; arg_picture := omitted;
     arg_bhp := passed (Some false); arg_worker := omitted; arg_change := omitted |}.

(** [update_detection(1, picture=None)] *)
Definition picture_None : update_arguments :=
  {| arg_timestamp := omitted; arg_category := omitted;
     arg_latitude := omitted; arg_longitude := omitted; arg_picture := passed None;
     arg_bhp := omitted; arg_worker := omitted; arg_change := omitted |}.

Definition scenario_db_updated : database :=
  Eval vm_compute in snd (call_update_detection 2 critical_hazard scenario_db).

Definition scenario_db_deleted : database :=
  Eval vm_compute in snd (delete_detection 1 scenario_db).

(** Calls that follow the scenario: an [add_flight_log] that raises, two
    that return, deletes of a stored and of an unknown id. *)
Definition more_calls : list call :=
  [Call_add_flight_log scenario_timestamp unserializable_telemetry;
   Call_add_flight_log scenario_timestamp scenario_telemetry;
   Call_delete_flight_log 2;
   Call_delete_flight_log 999;
   Call_add_flight_log scenario_timestamp scenario_telemetry;
   Call_get_all_flight_logs].


(** ** Vocabulary of the further properties *)

Section Clients.

Context `{PyFloatRepr}.

(** The call deletes the flight log with this id. *)
Definition deletes_flight_log (log_id : Z) (c : call) : bool :=
  match c with
  | Call_delete_flight_log id => (id =? log_id)%Z
  | _ => false
  end.

(** The call updates or deletes the detection with this id. *)
Definition writes_detection (detection_id : Z) (c : call) : bool :=
  match c with
  | Call_update_detection id _ => (id =? detection_id)%Z
  | Call_delete_detection id => (id =? detection_id)%Z
  | _ => false
  end.

(** The table after an UPDATE of the rows with [id] to one row [new] that has
    this id. *)
Definition rewritten (id : Z) (new : detections_row) (t : table detections_row)
  : table detections_row :=
  {| rows := map (fun r => if where_id dt_id id r then new else r) (rows t);
     sqlite_sequence := sqlite_sequence t |}.

(** The ids of the rows grow along the table. *)
Definition ascending {R : Type} (rowid : R -> Z) (t : table R) : Prop :=
  StronglySorted Z.lt (map rowid (rows t)).

End Clients.

(** ** The test suite

    [test_db.py].  unittest runs every test method on its own: [setUp], the
    method, [tearDown].  A method ends when its last statement returns, when
    an assertion fails, or when a statement raises. *)

Section TestDroneDB.

Context `{PyFloatRepr}.

(** *** unittest *)

Inductive outcome (A : Type) : Type :=
| Returns (a : A)
| Fails            (* AssertionError *)
| Errors (e : exn).

Arguments Returns {A} a.
Arguments Fails {A}.
Arguments Errors {A} e.

(** A statement of a test method, over the content of the database file. *)
Definition T (A : Type) : Type := database -> outcome A * database.

Definition returns {A} (a : A) : T A := fun db => (Returns a, db).

Definition and_then {A B} (c : T A) (k : A -> T B) : T B :=
  fun db =>
    match c db with
    | (Returns a, db') => k a db'
    | (Fails, db') => (Fails, db')
    | (Errors e, db') => (Errors e, db')
    end.

Declare Scope test_scope.
Delimit Scope test_scope with test.
Notation "x <- c ;; k" := (and_then c (fun x => k))
  (at level 61, c at next level, right associativity) : test_scope.
Notation "c ;; k" := (and_then c (fun _ => k))
  (at level 61, right associativity) : test_scope.

(** [self.db.method(...)]: an exception of the method is an error of the
    test. *)
Definition self_db {A} (c : M database A) : T A :=
  fun db =>
    match c db with
    | (Ok a, db') => (Returns a, db')
    | (Raise e, db') => (Errors e, db')
    end.

Definition fail : T unit := fun db => (Fails, db).

Definition assertTrue (expr : bool) : T unit :=
  if expr then returns tt else fail.

Definition assertFalse (expr : bool) : T unit :=
  if expr then fail else returns tt.

Definition assertIsNone {A} (obj : option A) : T unit :=
  match obj with
  | None => returns tt
  | Some _ => fail
  end.

Definition assertIsNotNone {A} (obj : option A) : T unit :=
  match obj with
  | None => fail
  | Some _ => returns tt
  end.

(** [assertGreater(a, b)] fails unless [a > b]. *)
Definition assertGreater (a b : Z) : T unit := assertTrue (a >? b)%Z.

(** [assertEqual(first, second)] fails unless [first == second]; [eq] is
    [==] at the type of the operands. *)
Definition assertEqual {A} (eq : A -> A -> bool) (first second : A) : T unit :=
  assertTrue (eq first second).

(** [assertIn(member, container)] on a list of ints. *)
Definition assertIn (member : Z) (container : list Z) : T unit :=
  assertTrue (existsb (Z.eqb member) container).

(** [obj[key]] on what a getter returned: a dictionary, or [None], which is
    not subscriptable. *)
Definition getitem {A B} (obj : option A) (key : A -> B) : T B :=
  match obj with
  | Some d => returns (key d)
  | None => fun db => (Errors TypeError, db)
  end.

Definition len {A} (l : list A) : Z := Z.of_nat (List.length l).

(** *** Equality of Python values

    [a == b] for two values that share no object, as a value read from the
    database and a value of the test do.  Two finite floats are equal when
    they are the same float, which their text forms tell, or when both are
    zero.  Whether a finite float equals an int is not told by its text
    form, and [==] on an object outside the model is up to its class: both
    are parameters. *)

Variable float_eq_int : finfloat -> Z -> bool.
Variable object_eq : pyval -> pyval -> bool.

Definition is_zero (x : finfloat) : bool :=
  let text := literal_text (float_repr x) in
  (text =? "0.0")%string || (text =? "-0.0")%string.

Definition float_eq (x y : finfloat) : bool :=
  (literal_text (float_repr x) =? literal_text (float_repr y))%string
  || (is_zero x && is_zero y).

Definition pyfloat_eq (f g : pyfloat finfloat) : bool :=
  match f, g with
  | FFinite x, FFinite y => float_eq x y
  | FInf, FInf => true
  | FNegInf, FNegInf => true
  | _, _ => false
  end.

(** [bool] is a subclass of [int]: [True] is 1 and [False] is 0. *)
Definition py_eq (a b : pyval) : bool :=
  match a, b with
  | PyObject _, _ => object_eq a b
  | _, PyObject _ => object_eq a b
  | PyNone, PyNone => true
  | PyStr s, PyStr s' => (s =? s')%string
  | PyBool x, PyBool y => (flag x =? flag y)%Z
  | PyBool x, PyInt n => (flag x =? n)%Z
  | PyInt m, PyBool y => (m =? flag y)%Z
  | PyInt m, PyInt n => (m =? n)%Z
  | PyFloat f, PyFloat g => pyfloat_eq f g
  | PyFloat (FFinite x), PyInt n => float_eq_int x n
  | PyFloat (FFinite x), PyBool y => float_eq_int x (flag y)
  | PyInt m, PyFloat (FFinite y) => float_eq_int y m
  | PyBool x, PyFloat (FFinite y) => float_eq_int y (flag x)
  | _, _ => false
  end.

(** [list.__eq__]: the same length and equal elements. *)
Fixpoint list_eq (l l' : list pyval) : bool :=
  match l, l' with
  | [], [] => true
  | a :: l, b :: l' => py_eq a b && list_eq l l'
  | _, _ => false
  end.

Fixpoint dict_get {V} (d : pydict V) (k : string) : option V :=
  match d with
  | [] => None
  | (k', v) :: d' => if (k' =? k)%string then Some v else dict_get d' k
  end.

(** [dict.__eq__]: the same number of items, and every key of the first
    is a key of the second with an equal value. *)
Definition dict_eq (a b : telemetry) : bool :=
  (List.length a =? List.length b)%nat
  && forallb (fun kv =>
                match dict_get b (fst kv) with
                | Some v => list_eq (snd kv) v
                | None => false
                end) a.

(** [==] on values that are a string or [None]. *)
Definition optional_eq (a b : option string) : bool :=
  match a, b with
  | Some s, Some s' => (s =? s')%string
  | None, None => true
  | _, _ => false
  end.

(** Values on which [==] is reflexive across objects: no NaN, and no
    object outside the model. *)
Definition comparable (o : pyval) : bool :=
  match o with
  | PyObject _ => false
  | PyFloat FNaN => false
  | _ => true
  end.

(** *** The fixture *)

(** The float literals of the file are small decimals, hence finite
    floats; [literal] gives the float a literal stands for. *)
Variable literal : string -> finfloat.

Definition float_ (text : string) : pyval := PyFloat (FFinite (literal text)).

(** The attributes of [self] besides [self.db], which is the database file
    at [self.test_db_path]. *)
Record fixture : Type := {
  self_sample_telemetry : telemetry;
  self_timestamp : string
}.

(** [if os.path.exists(self.test_db_path): os.remove(self.test_db_path)]:
    the file is there with a content, or it is not. *)
Definition remove_if_exists (file : option database) : option database :=
  match file with
  | Some _ => None
  | None => None
  end.

(** [now] is what [datetime.datetime.now().isoformat()] returns. *)
Definition setUp (now : string) (file : option database) : fixture * database :=
  let file := remove_if_exists file in
  let db := _create_tables file in
  ({| self_sample_telemetry :=
        [("Roll", [float_ "1.0"; float_ "2.0"; float_ "3.0"]);
         ("Pitch", [float_ "0.5"; float_ "1.5"; float_ "2.5"]);
         ("Yaw", [float_ "0.1"; float_ "0.2"; float_ "0.3"]);
         ("Latitude", [float_ "52.1"; float_ "52.2"; float_ "52.3"]);
         ("Longitude", [float_ "21.1"; float_ "21.2"; float_ "21.3"]);
         ("Altitude", [float_ "100.0"; float_ "110.0"; float_ "120.0"]);
         ("HDOP", [float_ "1.1"; float_ "1.2"; float_ "1.3"]);
         ("VDOP", [float_ "2.1"; float_ "2.2"; float_ "2.3"]);
         ("Satellites", [PyInt 8; PyInt 9; PyInt 10]);
         ("Flight_Mode", [PyStr "AUTO"; PyStr "AUTO"; PyStr "LOITER"]);
         ("Voltage", [float_ "12.1"; float_ "12.0"; float_ "11.9"]);
         ("Current", [float_ "10.5"; float_ "10.6"; float_ "10.7"]);
         ("Armed", [PyBool true; PyBool true; PyBool true])];
      self_timestamp := now |},
   db).

Definition tearDown (file : option database) : option database :=
  remove_if_exists file.

(** One test: the outcome of the method, and the file after [tearDown]. *)
Definition run_test (test : fixture -> T unit) (now : string) (file : option database)
  : outcome unit * option database :=
  let (self, db) := setUp now file in
  let (r, db') := test self db in
  (r, tearDown (Some db')).

(** *** Flight log tests *)

Local Open Scope test_scope.

(** The local [log_id] of the flight log tests is [new_id] here, [log_id]
    being the key ["id"] of a log; an id is an int, hence not [None]. *)
Definition test_add_get_flight_log (self : fixture) : T unit :=
  new_id <- self_db (add_flight_log (self_timestamp self) (self_sample_telemetry self)) ;;
  assertIsNotNone (Some new_id) ;;
  assertGreater new_id 0 ;;
  log <- self_db (get_flight_log new_id) ;;
  assertIsNotNone log ;;
  id <- getitem log log_id ;;
  assertEqual Z.eqb id new_id ;;
  timestamp <- getitem log log_timestamp ;;
  assertEqual String.eqb timestamp (self_timestamp self) ;;
  telemetry_data <- getitem log log_telemetry_data ;;
  assertEqual dict_eq telemetry_data (self_sample_telemetry self).

(** [timestamp2] is what the clock returns at the second reading. *)
Definition test_get_all_flight_logs (timestamp2 : string) (self : fixture) : T unit :=
  log_id1 <- self_db (add_flight_log (self_timestamp self) (self_sample_telemetry self)) ;;
  log_id2 <- self_db (add_flight_log timestamp2 (self_sample_telemetry self)) ;;
  logs <- self_db get_all_flight_logs ;;
  assertEqual Z.eqb (len logs) 2%Z ;;
  let log_ids := map log_id logs in
  assertIn log_id1 log_ids ;;
  assertIn log_id2 log_ids.

Definition test_delete_flight_log (self : fixture) : T unit :=
  new_id <- self_db (add_flight_log (self_timestamp self) (self_sample_telemetry self)) ;;
  log <- self_db (get_flight_log new_id) ;;
  assertIsNotNone log ;;
  deleted <- self_db (delete_flight_log new_id) ;;
  assertTrue deleted ;;
  log <- self_db (get_flight_log new_id) ;;
  assertIsNone log ;;
  deleted <- self_db (delete_flight_log 999) ;;
  assertFalse deleted.

(** *** Detection tests

    A call that leaves [picture] out passes its default, [None]. *)

Definition test_add_get_detection (self : fixture) : T unit :=
  detection_id <- self_db (add_detection (self_timestamp self) "Person"
                             (literal "52.1") (literal "21.1")
                             (Some "path/to/image.jpg") true true false) ;;
  assertIsNotNone (Some detection_id) ;;
  assertGreater detection_id 0 ;;
  detection <- self_db (get_detection detection_id) ;;
  assertIsNotNone detection ;;
  id <- getitem detection det_id ;;
  assertEqual Z.eqb id detection_id ;;
  timestamp <- getitem detection det_timestamp ;;
  assertEqual String.eqb timestamp (self_timestamp self) ;;
  category <- getitem detection det_category ;;
  assertEqual String.eqb category "Person" ;;
  latitude <- getitem detection det_latitude ;;
  assertEqual float_eq latitude (literal "52.1") ;;
  longitude <- getitem detection det_longitude ;;
  assertEqual float_eq longitude (literal "21.1") ;;
  picture <- getitem detection det_picture ;;
  assertEqual optional_eq picture (Some "path/to/image.jpg") ;;
  bhp <- getitem detection det_bhp ;;
  assertTrue bhp ;;
  worker <- getitem detection det_worker ;;
  assertTrue worker ;;
  change <- getitem detection det_change ;;
  assertFalse change.

Definition test_get_all_detections (timestamp2 : string) (self : fixture) : T unit :=
  detection_id1 <- self_db (add_detection (self_timestamp self) "Person"
                              (literal "52.1") (literal "21.1") None true true false) ;;
  detection_id2 <- self_db (add_detection timestamp2 "Vehicle"
                              (literal "52.2") (literal "21.2") None false false true) ;;
  detections <- self_db get_all_detections ;;
  assertEqual Z.eqb (len detections) 2%Z ;;
  let detection_ids := map det_id detections in
  assertIn detection_id1 detection_ids ;;
  assertIn detection_id2 detection_ids.

Definition test_update_detection (self : fixture) : T unit :=
  detection_id <- self_db (add_detection (self_timestamp self) "Person"
                             (literal "52.1") (literal "21.1") None true true false) ;;
  updated <- self_db (call_update_detection detection_id
                        {| arg_timestamp := omitted;
                           arg_category := passed (Some "Worker");
                           arg_latitude := passed (Some (literal "52.5"));
                           arg_longitude := omitted;
                           arg_picture := omitted;
                           arg_bhp := passed (Some false);
                           arg_worker := omitted;
                           arg_change := omitted |}) ;;
  assertTrue updated ;;
  detection <- self_db (get_detection detection_id) ;;
  category <- getitem detection det_category ;;
  assertEqual String.eqb category "Worker" ;;
  latitude <- getitem detection det_latitude ;;
  assertEqual float_eq latitude (literal "52.5") ;;
  bhp <- getitem detection det_bhp ;;
  assertFalse bhp ;;
  longitude <- getitem detection det_longitude ;;
  assertEqual float_eq longitude (literal "21.1") ;;
  worker <- getitem detection det_worker ;;
  assertTrue worker ;;
  change <- getitem detection det_change ;;
  assertFalse change ;;
  updated <- self_db (call_update_detection 999
                        {| arg_timestamp := omitted;
                           arg_category := passed (Some "Non-existent");
                           arg_latitude := omitted;
                           arg_longitude := omitted;
                           arg_picture := omitted;
                           arg_bhp := omitted;
                           arg_worker := omitted;
                           arg_change := omitted |}) ;;
  assertFalse updated.

Definition test_delete_detection (self : fixture) : T unit :=
  detection_id <- self_db (add_detection (self_timestamp self) "Person"
                             (literal "52.1") (literal "21.1") None false true false) ;;
  detection <- self_db (get_detection detection_id) ;;
  assertIsNotNone detection ;;
  deleted <- self_db (delete_detection detection_id) ;;
  assertTrue deleted ;;
  detection <- self_db (get_detection detection_id) ;;
  assertIsNone detection ;;
  deleted <- self_db (delete_detection 999) ;;
  assertFalse deleted.

End TestDroneDB.

Arguments Returns {A} a.
Arguments Fails {A}.
Arguments Errors {A} e.

Unset Implicit Arguments.

(** * Facts about the JSON text *)

Lemma append_assoc (a b c : string) : (a ++ b) ++ c = a ++ (b ++ c).
Proof. induction a as [|x a IH]; simpl; [reflexivity | now rewrite IH]. Qed.

Lemma append_empty_r (a : string) : a ++ EmptyString = a.
Proof. induction a as [|x a IH]; simpl; [reflexivity | now rewrite IH]. Qed.

Lemma length_append (a b : string) :
  String.length (a ++ b) = String.length a + String.length b.
Proof. induction a as [|x a IH]; simpl; [reflexivity | now rewrite IH]. Qed.

(** *** String literals *)

Lemma scanstring_escape_char (c : ascii) (tl : string) :
  py_scanstring (escape_char c ++ tl) = cons_chunk c (py_scanstring tl).
Proof.
  destruct c as [[] [] [] [] [] [] [] []]; reflexivity.
Qed.

Lemma scanstring_escape_string (s rest : string) :
  py_scanstring (escape_string s ++ String QUOTE rest) = Some (s, rest).
Proof.
  induction s as [|c s IH]; simpl.
  - reflexivity.
  - rewrite append_assoc, scanstring_escape_char, IH. reflexivity.
Qed.

(** After the opening quote, the scanner reads back what the encoder
    wrote. *)
Lemma scanstring_encode (s rest : string) :
  exists body,
    encode_basestring_ascii s ++ rest = String QUOTE body /\
    py_scanstring body = Some (s, rest).
Proof.
  exists (escape_string s ++ String QUOTE rest). split.
  - unfold encode_basestring_ascii. simpl. now rewrite append_assoc.
  - apply scanstring_escape_string.
Qed.

(** *** Decimal digits *)

Local Notation "'digits'" := NilEmpty.string_of_uint.

Lemma ends_number_no_digit s : ends_number s = true -> no_digit_ahead s = true.
Proof.
  destruct s as [|c s]; simpl; [reflexivity|].
  destruct (is_digit c); simpl; [discriminate | reflexivity].
Qed.

Lemma span_digits_stop (s : string) :
  no_digit_ahead s = true -> span_digits s = (EmptyString, s).
Proof.
  destruct s as [|c s]; simpl; [reflexivity|].
  now destruct (is_digit c).
Qed.

Lemma span_digits_uint (d : uint) (rest : string) :
  no_digit_ahead rest = true ->
  span_digits (digits d ++ rest) = (digits d, rest).
Proof.
  intros Hrest.
  induction d; simpl; rewrite ?IHd; try reflexivity.
  now apply span_digits_stop.
Qed.

Lemma digits_nonempty (d : uint) :
  d <> Nil -> exists c ds, digits d = String c ds.
Proof. destruct d; simpl; eauto; now intros []. Qed.

(** A decimal without leading zeros is the single digit zero or starts with
    a non-zero digit. *)
Lemma unorm_fixed_zero (d : uint) : unorm (D0 d) = D0 d -> d = Nil.
Proof.
  intros Heq. destruct d; [reflexivity | exfalso ..];
    match type of Heq with
    | unorm (D0 ?u) = _ =>
        assert (Hn : u <> Nil) by discriminate;
        pose proof (nb_digits_unorm u Hn) as Hle;
        rewrite unorm_D0 in Heq; rewrite Heq in Hle; simpl in Hle; lia
    end.
Qed.

Lemma scan_integer_uint (d : uint) (rest : string) :
  unorm d = d ->
  no_digit_ahead rest = true ->
  scan_integer (digits d ++ rest) = Some (digits d, rest) /\
  scan_integer (String "-" (digits d ++ rest)) = Some (String "-" (digits d), rest).
Proof.
  intros Hnorm Hrest.
  destruct d;
    try (unfold scan_integer; simpl; rewrite (span_digits_uint _ _ Hrest); now split).
  - now destruct (unorm_nonnil Nil).
  - apply unorm_fixed_zero in Hnorm. subst d. now split.
Qed.

Lemma to_uint_canonical (n : N) : unorm (N.to_uint n) = N.to_uint n.
Proof.
  rewrite <- (DecimalN.Unsigned.of_to n) at 2.
  now rewrite DecimalN.Unsigned.to_of.
Qed.

Lemma pos_to_uint_canonical (p : positive) : unorm (Pos.to_uint p) = Pos.to_uint p.
Proof. exact (to_uint_canonical (Npos p)). Qed.

Lemma pos_to_uint_not_nil (p : positive) : Pos.to_uint p <> Nil.
Proof. rewrite <- pos_to_uint_canonical. apply unorm_nonnil. Qed.

Lemma scan_frac_stop (s : string) : ends_number s = true -> scan_frac s = (EmptyString, s).
Proof.
  destruct s as [|c s]; [reflexivity|].
  destruct c as [[] [] [] [] [] [] [] []]; try reflexivity; discriminate.
Qed.

Lemma scan_exp_stop (s : string) : ends_number s = true -> scan_exp s = (EmptyString, s).
Proof.
  destruct s as [|c s]; [reflexivity|].
  destruct c as [[] [] [] [] [] [] [] []]; try reflexivity; discriminate.
Qed.

(** *** Integers *)

Lemma int_repr_cases (z : Z) :
  exists d, unorm d = d /\
    (int_repr z = digits d \/ int_repr z = String "-" (digits d)).
Proof.
  destruct z as [|p|p]; unfold int_repr; simpl.
  - exists (D0 Nil). now split; [|left].
  - exists (Pos.to_uint p). split; [apply pos_to_uint_canonical|left].
    pose proof (pos_to_uint_not_nil p). now destruct (Pos.to_uint p).
  - exists (Pos.to_uint p). split; [apply pos_to_uint_canonical|right].
    pose proof (pos_to_uint_not_nil p). now destruct (Pos.to_uint p).
Qed.

Lemma match_number_int (z : Z) (rest : string) :
  ends_number rest = true ->
  match_number (int_repr z ++ rest) = Some (int_repr z, EmptyString, EmptyString, rest).
Proof.
  intros Hrest. unfold match_number.
  destruct (int_repr_cases z) as (d & Hd & [-> | ->]);
    destruct (scan_integer_uint d rest Hd (ends_number_no_digit _ Hrest)) as [H1 H2].
  - rewrite H1. now rewrite scan_frac_stop, scan_exp_stop.
  - simpl. rewrite H2. now rewrite scan_frac_stop, scan_exp_stop.
Qed.

Lemma parse_int_repr (z : Z) : parse_int (int_repr z) = Some z.
Proof.
  unfold parse_int, int_repr.
  rewrite NilZero.isi.
  - simpl. now rewrite DecimalZ.of_to.
  - destruct z; simpl; try discriminate. intros [= Hp]. now apply pos_to_uint_not_nil in Hp.
  - destruct z; simpl; try discriminate. intros [= Hp]. now apply pos_to_uint_not_nil in Hp.
Qed.

(** *** Float literals *)

Lemma scan_frac_digits (d : uint) (rest : string) :
  d <> Nil ->
  no_digit_ahead rest = true ->
  scan_frac (String "." (digits d ++ rest)) = (String "." (digits d), rest).
Proof.
  intros Hd Hrest. unfold scan_frac.
  rewrite (span_digits_uint d rest Hrest).
  now destruct (digits_nonempty d Hd) as (c & ds & ->).
Qed.

Lemma scan_exp_digits (neg : bool) (e : uint) (rest : string) :
  e <> Nil ->
  no_digit_ahead rest = true ->
  scan_exp (String "e" ((if neg then "-" else "+") ++ digits e ++ rest))
  = (String "e" ((if neg then "-" else "+") ++ digits e), rest).
Proof.
  intros He Hrest. unfold scan_exp.
  destruct neg; simpl; rewrite (span_digits_uint e rest Hrest);
    now destruct (digits_nonempty e He) as (c & ds & ->).
Qed.

Lemma uint_is_nil_false (d : uint) : uint_is_nil d = false -> d <> Nil.
Proof. now destruct d. Qed.

(** The exponent group reads the exponent of a literal, and what comes
    before it sees no digit and no dot ahead. *)
Lemma scan_literal_exp (l : float_literal) (rest : string) :
  (forall neg e, lit_exp l = Some (neg, e) -> e <> Nil) ->
  ends_number rest = true ->
  scan_exp (literal_exp l ++ rest) = (literal_exp l, rest) /\
  no_digit_ahead (literal_exp l ++ rest) = true /\
  scan_frac (literal_exp l ++ rest) = (EmptyString, literal_exp l ++ rest).
Proof.
  intros Hexp Hrest. unfold literal_exp.
  destruct (lit_exp l) as [[neg e]|].
  - split; [|now split].
    simpl. rewrite append_assoc.
    apply scan_exp_digits; [now apply (Hexp neg) | now apply ends_number_no_digit].
  - simpl. repeat split.
    + now apply scan_exp_stop.
    + now apply ends_number_no_digit.
    + now apply scan_frac_stop.
Qed.

Lemma scan_literal_frac (l : float_literal) (tail : string) :
  no_digit_ahead tail = true ->
  scan_frac tail = (EmptyString, tail) ->
  scan_frac (literal_frac l ++ tail) = (literal_frac l, tail) /\
  no_digit_ahead (literal_frac l ++ tail) = true.
Proof.
  intros Hdigit Hfrac. unfold literal_frac.
  destruct (lit_frac l) eqn:Hd; try now split.
  all: split; [|reflexivity].
  all: rewrite <- Hd; change (String "." (digits (lit_frac l)) ++ tail)
         with (String "." (digits (lit_frac l) ++ tail));
       apply scan_frac_digits; [rewrite Hd; discriminate | assumption].
Qed.

Lemma literal_ok_exp (l : float_literal) :
  literal_ok l = true -> forall neg e, lit_exp l = Some (neg, e) -> e <> Nil.
Proof.
  unfold literal_ok. intros Hok neg e Heq. rewrite Heq in Hok.
  apply uint_is_nil_false. now destruct (uint_is_nil e).
Qed.

Lemma literal_ok_float (l : float_literal) :
  literal_ok l = true ->
  is_empty (literal_frac l) && is_empty (literal_exp l) = false.
Proof.
  unfold literal_ok, literal_frac, literal_exp.
  destruct (lit_exp l) as [[neg e]|].
  - intros _. now rewrite andb_false_r.
  - now destruct (lit_frac l).
Qed.

Lemma match_number_literal (l : float_literal) (rest : string) :
  literal_ok l = true ->
  ends_number rest = true ->
  match_number (literal_text l ++ rest)
  = Some (literal_integer l, literal_frac l, literal_exp l, rest).
Proof.
  intros Hok Hrest.
  destruct (scan_literal_exp l rest (literal_ok_exp l Hok) Hrest) as (He & Hd & Hf).
  destruct (scan_literal_frac l _ Hd Hf) as (Hf' & Hd').
  unfold match_number, literal_text. rewrite !append_assoc.
  unfold literal_integer.
  destruct (scan_integer_uint (N.to_uint (lit_int l)) _ (to_uint_canonical _) Hd')
    as [Hpos Hneg].
  destruct (lit_neg l); simpl.
  - rewrite Hneg, Hf', He. reflexivity.
  - rewrite Hpos, Hf', He. reflexivity.
Qed.

(** *** The decoder reads back what the encoder wrote *)

Section Codec.

Context `{PyFloatRepr}.

Lemma at_delimiter_ends_number s : at_delimiter s = true -> ends_number s = true.
Proof.
  destruct s as [|c s]; [discriminate|].
  destruct c as [[] [] [] [] [] [] [] []]; try discriminate; reflexivity.
Qed.

Lemma digits_starts_number (d : uint) (rest : string) :
  d <> Nil -> starts_number (digits d ++ rest) = true.
Proof. destruct d; try reflexivity. now intros []. Qed.

Lemma int_repr_starts_number (z : Z) (rest : string) :
  starts_number (int_repr z ++ rest) = true.
Proof.
  destruct (int_repr_cases z) as (d & Hd & [-> | ->]); [|reflexivity].
  apply digits_starts_number. rewrite <- Hd. apply unorm_nonnil.
Qed.

Lemma literal_starts_number (l : float_literal) (rest : string) :
  starts_number (literal_text l ++ rest) = true.
Proof.
  unfold literal_text, literal_integer. rewrite !append_assoc.
  destruct (lit_neg l); [reflexivity|]. simpl.
  apply digits_starts_number. rewrite <- to_uint_canonical. apply unorm_nonnil.
Qed.

(** On a text that starts like a number and that the number pattern
    matches, [scan_once] takes the number branch. *)
Lemma scan_once_number (s integer frac exp r : string) :
  starts_number s = true ->
  match_number s = Some (integer, frac, exp, r) ->
  scan_once s =
    if is_empty frac && is_empty exp
    then option_map (fun z => (PyInt z, r)) (parse_int integer)
    else Some (PyFloat (float_of_str (integer ++ frac ++ exp)), r).
Proof.
  intros Hstart Hmatch.
  destruct s as [|c tl]; [discriminate|].
  unfold scan_once. rewrite Hmatch.
  destruct c as [[] [] [] [] [] [] [] []]; try discriminate; reflexivity.
Qed.

Lemma scan_once_encode (o : pyval) (chunk rest : string) :
  encode_value o = Ok chunk ->
  at_delimiter rest = true ->
  scan_once (chunk ++ rest) = Some (o, rest).
Proof.
  intros Henc Hrest.
  pose proof (at_delimiter_ends_number _ Hrest) as Hend.
  destruct o as [ | [] | z | [ | | | x] | s | t]; simpl in Henc;
    try discriminate; injection Henc as <-; try reflexivity.
  - (* int *)
    rewrite (scan_once_number _ _ _ _ _ (int_repr_starts_number z rest)
               (match_number_int z rest Hend)).
    simpl. now rewrite parse_int_repr.
  - (* finite float *)
    rewrite (scan_once_number _ _ _ _ _ (literal_starts_number _ rest)
               (match_number_literal _ rest (float_repr_ok x) Hend)).
    rewrite (literal_ok_float _ (float_repr_ok x)).
    change (literal_integer (float_repr x) ++ literal_frac (float_repr x)
              ++ literal_exp (float_repr x))
      with (literal_text (float_repr x)).
    now rewrite float_of_repr.
  - (* str *)
    destruct (scanstring_encode s rest) as (body & -> & Hscan).
    simpl. now rewrite Hscan.
Qed.

Lemma scan_once_not_ws (s : string) (x : pyval * string) :
  scan_once s = Some x -> skip_ws s = s.
Proof.
  destruct s as [|c tl]; [reflexivity|].
  intros Hscan. simpl. destruct (is_ws c) eqn:Hws; [|reflexivity].
  unfold is_ws in Hws.
  repeat (apply orb_true_iff in Hws; destruct Hws as [Hws|Hws]);
    apply Ascii.eqb_eq in Hws; subst c; discriminate.
Qed.

Lemma result_map_cons {A B} (f : A -> result B) (a : A) (l : list A) (bs : list B) :
  result_map f (a :: l) = Ok bs ->
  exists b bs', f a = Ok b /\ result_map f l = Ok bs' /\ bs = b :: bs'.
Proof.
  simpl. destruct (f a) as [b|]; [|discriminate].
  destruct (result_map f l) as [bs'|]; [|discriminate].
  simpl. intros [= <-]. now exists b, bs'.
Qed.

Lemma array_items_not_ws (fuel : nat) (s : string) (x : list pyval * string) :
  array_items fuel s = Some x -> skip_ws s = s.
Proof.
  destruct fuel; [discriminate|]. simpl.
  destruct (scan_once s) as [p|] eqn:Hscan; [|discriminate].
  intros _. now apply (scan_once_not_ws s p).
Qed.

Lemma array_items_join (values : list pyval) :
  forall (chunks : list string) (rest : string) (fuel : nat),
    result_map encode_value values = Ok chunks ->
    values <> [] ->
    String.length (join ", " chunks ++ String "]" rest) <= fuel ->
    array_items fuel (join ", " chunks ++ String "]" rest) = Some (values, rest).
Proof.
  induction values as [|o values IH]; intros chunks rest fuel Henc Hne Hfuel;
    [now destruct Hne|].
  apply result_map_cons in Henc. destruct Henc as (chunk & chunks' & Ho & Hl & ->).
  destruct fuel as [|fuel].
  { destruct chunks'; simpl in Hfuel; rewrite !length_append in Hfuel;
      simpl in Hfuel; lia. }
  destruct values as [|o' values].
  - injection Hl as <-. simpl.
    now rewrite (scan_once_encode o chunk (String "]" rest) Ho eq_refl).
  - assert (Hl' := Hl).
    apply result_map_cons in Hl'. destruct Hl' as (chunk' & chunks'' & _ & _ & ->).
    change (join ", " (chunk :: chunk' :: chunks''))
      with (chunk ++ ", " ++ join ", " (chunk' :: chunks'')) in *.
    rewrite !append_assoc in *.
    assert (Hrec : array_items fuel (join ", " (chunk' :: chunks'') ++ String "]" rest)
                   = Some (o' :: values, rest)).
    { apply IH; [assumption | discriminate |].
      rewrite !length_append in Hfuel. simpl in Hfuel.
      rewrite length_append. simpl. lia. }
    pose proof (array_items_not_ws _ _ _ Hrec) as Hws.
    remember (join ", " (chunk' :: chunks'') ++ String "]" rest) as tail eqn:Htail.
    clear Htail IH Hl.
    cbn [array_items].
    rewrite (scan_once_encode o chunk (", " ++ tail) Ho eq_refl).
    cbn. now rewrite Hws, Hrec.
Qed.

Lemma JSONArray_items (fuel : nat) (s : string) (x : list pyval * string) :
  array_items fuel s = Some x -> JSONArray fuel s = Some x.
Proof.
  intros Hitems. unfold JSONArray.
  rewrite (array_items_not_ws _ _ _ Hitems).
  destruct s as [|c tl].
  - destruct fuel; discriminate.
  - destruct (Ascii.eqb_spec c "]"); [|assumption].
    subst c. destruct fuel; discriminate.
Qed.

(** A list: the text starts with a bracket, and [JSONArray] called after it
    returns the list. *)
Lemma JSONArray_encode (lst : list pyval) (text rest : string) (fuel : nat) :
  encode_list lst = Ok text ->
  String.length (text ++ rest) <= fuel ->
  exists body,
    text ++ rest = String "[" body /\ JSONArray fuel body = Some (lst, rest).
Proof.
  unfold encode_list. intros Henc Hfuel.
  destruct (result_map encode_value lst) as [chunks|] eqn:Hmap; [|discriminate].
  injection Henc as <-.
  exists (join ", " chunks ++ String "]" rest). split.
  - simpl. now rewrite append_assoc.
  - destruct lst as [|o lst].
    + injection Hmap as <-. reflexivity.
    + apply JSONArray_items, array_items_join; [assumption | discriminate |].
      simpl in Hfuel. rewrite append_assoc in Hfuel. simpl in Hfuel. lia.
Qed.

Lemma encode_item_text (kv : string * list pyval) (chunk : string) :
  encode_item kv = Ok chunk ->
  exists text,
    encode_list (snd kv) = Ok text /\
    chunk = encode_basestring_ascii (fst kv) ++ ": " ++ text.
Proof.
  unfold encode_item. destruct (encode_list (snd kv)) as [text|]; [|discriminate].
  simpl. intros [= <-]. now exists text.
Qed.

Lemma join_first (sep chunk : string) (chunks : list string) (rest : string) :
  join sep (chunk :: chunks) ++ rest = chunk ++ after_first sep chunks rest.
Proof.
  destruct chunks as [|c cs]; [reflexivity|].
  change (join sep (chunk :: c :: cs)) with (chunk ++ sep ++ join sep (c :: cs)).
  now rewrite !append_assoc.
Qed.

Lemma item_text (key text tail : string) :
  (encode_basestring_ascii key ++ ": " ++ text) ++ tail
  = String QUOTE (escape_string key ++ String QUOTE (String ":" (String " " (text ++ tail)))).
Proof.
  unfold encode_basestring_ascii. simpl. now rewrite !append_assoc.
Qed.

(** The items of a non-empty dictionary: the text starts with the quote of
    the first key, and [object_items] called after it returns the items. *)
Lemma object_items_join (obj : telemetry) :
  forall (chunks : list string) (rest : string) (fuel : nat),
    result_map encode_item obj = Ok chunks ->
    obj <> [] ->
    String.length (join ", " chunks ++ String "}" rest) <= fuel ->
    exists body,
      join ", " chunks ++ String "}" rest = String QUOTE body /\
      object_items fuel body = Some (obj, rest).
Proof.
  induction obj as [|[key lst] obj IH]; intros chunks rest fuel Henc Hne Hfuel;
    [now destruct Hne|].
  apply result_map_cons in Henc. destruct Henc as (chunk & chunks' & Hkv & Hl & ->).
  apply encode_item_text in Hkv. cbn [fst snd] in Hkv.
  destruct Hkv as (text & Hlst & ->).
  rewrite join_first, item_text in Hfuel |- *.
  eexists. split; [reflexivity|].
  destruct fuel as [|fuel]; [simpl in Hfuel; lia|].
  simpl in Hfuel. rewrite length_append in Hfuel. simpl in Hfuel.
  set (tail := after_first ", " chunks' (String "}" rest)) in *.
  destruct (JSONArray_encode lst text tail (S fuel) Hlst) as (abody & Htext & Harr);
    [lia|].
  cbn [object_items]. rewrite scanstring_escape_string.
  cbn. rewrite Htext. cbn. rewrite Harr.
  subst tail. destruct obj as [|kv obj].
  - injection Hl as <-. reflexivity.
  - assert (Hl' := Hl). apply result_map_cons in Hl'.
    destruct Hl' as (c & cs & _ & _ & ->).
    destruct (IH (c :: cs) rest fuel Hl) as (body & Hbody & Hrec); [discriminate | |].
    { unfold after_first in Hfuel. rewrite !length_append in Hfuel.
      simpl in Hfuel. rewrite ?length_append in Hfuel.
      rewrite length_append. simpl in *. lia. }
    unfold after_first. rewrite Hbody. cbn. now rewrite Hrec.
Qed.

Lemma JSONObject_encode (obj : telemetry) (text : string) (fuel : nat) :
  json_dumps obj = Ok text ->
  String.length text <= fuel ->
  exists body,
    text = String "{" body /\ JSONObject fuel body = Some (obj, EmptyString).
Proof.
  unfold json_dumps. intros Henc Hfuel.
  destruct (result_map encode_item obj) as [chunks|] eqn:Hmap; [|discriminate].
  injection Henc as <-.
  exists (join ", " chunks ++ "}"). split; [reflexivity|].
  destruct obj as [|kv obj].
  - injection Hmap as <-. reflexivity.
  - destruct (object_items_join (kv :: obj) chunks EmptyString fuel Hmap) as (body & -> & Hrec);
      [discriminate | simpl in Hfuel; lia |].
    exact Hrec.
Qed.

(** [dict] leaves a list of items with distinct keys as it is. *)
Lemma dict_set_fresh {V} (d : pydict V) (k : string) (v : V) :
  ~ In k (map fst d) -> dict_set d k v = (d ++ [(k, v)])%list.
Proof.
  induction d as [|[k' v'] d IH]; simpl; intros Hin; [reflexivity|].
  destruct (String.eqb_spec k' k) as [->|_]; [now destruct Hin; left|].
  rewrite IH; [reflexivity | tauto].
Qed.

Lemma dict_fold_distinct {V} (pairs : list (string * V)) :
  forall acc : pydict V,
    NoDup (map fst (acc ++ pairs)%list) ->
    fold_left (fun d kv => dict_set d (fst kv) (snd kv)) pairs acc = (acc ++ pairs)%list.
Proof.
  induction pairs as [|[k v] pairs IH]; intros acc Hnd; simpl.
  - now rewrite List.app_nil_r.
  - rewrite dict_set_fresh.
    + rewrite IH; rewrite <- List.app_assoc; [reflexivity | exact Hnd].
    + rewrite List.map_app in Hnd. simpl in Hnd.
      now apply NoDup_remove_2 in Hnd; rewrite List.in_app_iff in *; tauto.
Qed.

Lemma dict_distinct {V} (pairs : list (string * V)) :
  NoDup (map fst pairs) -> dict pairs = pairs.
Proof. intros Hnd. exact (dict_fold_distinct pairs [] Hnd). Qed.

(** What [json.dumps] writes, [json.loads] reads back as the dictionary of
    the same items. *)
Lemma json_loads_dumps (obj : telemetry) (text : string) :
  json_dumps obj = Ok text -> json_loads text = Ok (dict obj).
Proof.
  intros Henc.
  destruct (JSONObject_encode obj text (String.length text) Henc (le_n _))
    as (body & Htext & Hobj).
  unfold json_loads. rewrite Htext at 1. cbn.
  subst text. cbn in Hobj |- *. now rewrite Hobj.
Qed.

Lemma encode_values_serializable (lst : list pyval) :
  forallb serializable lst = true ->
  exists chunks, result_map encode_value lst = Ok chunks.
Proof.
  induction lst as [|o lst IH]; simpl; [now eexists|].
  intros Hall. apply andb_true_iff in Hall. destruct Hall as [Ho Hall].
  destruct (IH Hall) as (chunks & ->).
  destruct o as [ | [] | | | | ]; try discriminate; simpl; now eexists.
Qed.


Lemma json_dumps_serializable (obj : telemetry) :
  serializable_telemetry obj = true -> exists text, json_dumps obj = Ok text.
Proof.
  intros Hser.
  assert (Hitems : exists chunks, result_map encode_item obj = Ok chunks).
  { induction obj as [|[key lst] obj IH]; simpl; [now eexists|].
    simpl in Hser. apply andb_true_iff in Hser. destruct Hser as [Hlst Hser].
    destruct (IH Hser) as (chunks & ->).
    unfold encode_item, encode_list. simpl.
    destruct (encode_values_serializable lst Hlst) as (cs & ->). simpl. now eexists. }
  destruct Hitems as (chunks & Hitems).
  unfold json_dumps. rewrite Hitems. simpl. now eexists.
Qed.


End Codec.

(** * Facts about tables *)

Section TableFacts.

Variable R : Type.
Variable rowid : R -> Z.

Lemma filter_nothing (f : R -> bool) (l : list R) :
  (forall r, In r l -> f r = false) -> filter f l = [].
Proof.
  induction l as [|r l IH]; simpl; intros Hall; [reflexivity|].
  rewrite (Hall r (or_introl eq_refl)). apply IH. intros r' Hin. apply Hall. now right.
Qed.

Lemma filter_everything (f : R -> bool) (l : list R) :
  (forall r, In r l -> f r = true) -> filter f l = l.
Proof.
  induction l as [|r l IH]; simpl; intros Hall; [reflexivity|].
  rewrite (Hall r (or_introl eq_refl)). f_equal. apply IH. intros r' Hin.
  apply Hall. now right.
Qed.

Lemma where_id_true (id : Z) (r : R) : where_id rowid id r = true <-> rowid r = id.
Proof. unfold where_id. apply Z.eqb_eq. Qed.

Lemma where_id_false (id : Z) (r : R) : where_id rowid id r = false <-> rowid r <> id.
Proof. unfold where_id. apply Z.eqb_neq. Qed.

Lemma select_absent (id : Z) (t : table R) :
  ~ In id (map rowid (rows t)) -> sql_select rowid id t = [].
Proof.
  intros Hout. apply filter_nothing. intros r Hin. apply where_id_false.
  intros <-. apply Hout. now apply in_map.
Qed.

Lemma select_present (id : Z) (t : table R) :
  In id (map rowid (rows t)) ->
  exists r rs, sql_select rowid id t = r :: rs /\ In r (rows t) /\ rowid r = id.
Proof.
  intros Hin. apply in_map_iff in Hin. destruct Hin as (r & Hid & Hin).
  assert (Hsel : In r (sql_select rowid id t)).
  { apply filter_In. split; [assumption | now apply where_id_true]. }
  destruct (sql_select rowid id t) as [|r' rs] eqn:Heq; [now destruct Hsel|].
  exists r', rs. split; [reflexivity|].
  assert (Hr' : In r' (sql_select rowid id t)) by (rewrite Heq; now left).
  apply filter_In in Hr'. now rewrite where_id_true in Hr'.
Qed.

Lemma select_head_stored (id : Z) (t : table R) (r : R) (rs : list R) :
  sql_select rowid id t = r :: rs -> In r (rows t) /\ rowid r = id.
Proof.
  intros Heq.
  assert (Hr : In r (sql_select rowid id t)) by (rewrite Heq; now left).
  apply filter_In in Hr. now rewrite where_id_true in Hr.
Qed.

Lemma table_eta (t : table R) :
  {| rows := rows t; sqlite_sequence := sqlite_sequence t |} = t.
Proof. now destruct t. Qed.

Lemma delete_absent (id : Z) (t : table R) :
  ~ In id (map rowid (rows t)) -> sql_delete rowid id t = (t, 0%Z).
Proof.
  intros Hout. unfold sql_delete.
  change (filter (where_id rowid id) (rows t)) with (sql_select rowid id t).
  rewrite (select_absent id t Hout). rewrite filter_everything.
  - now rewrite table_eta.
  - intros r Hin. apply negb_true_iff, where_id_false. intros <-.
    apply Hout. now apply in_map.
Qed.

(** Under the primary key, the rows with a stored id are one row, and
    deleting it leaves the rows before it and the rows after it. *)
Lemma primary_key_split (id : Z) (l : list R) :
  NoDup (map rowid l) ->
  In id (map rowid l) ->
  exists before r after,
    l = (before ++ r :: after)%list /\ rowid r = id /\
    filter (where_id rowid id) l = [r] /\
    filter (fun r => negb (where_id rowid id r)) l = (before ++ after)%list.
Proof.
  induction l as [|r l IH]; simpl; intros Hnd Hin; [now destruct Hin|].
  inversion Hnd as [|? ? Hfresh Hnd']; subst.
  destruct (Z.eq_dec (rowid r) id) as [Heq|Hneq].
  - exists [], r, l. subst id.
    assert (Hrest : forall r', In r' l -> where_id rowid (rowid r) r' = false).
    { intros r' Hr'. apply where_id_false. intros Heq. apply Hfresh.
      rewrite <- Heq. now apply in_map. }
    assert (Hself : where_id rowid (rowid r) r = true) by now apply where_id_true.
    rewrite Hself. simpl.
    rewrite (filter_nothing _ _ Hrest). repeat split.
    apply filter_everything. intros r' Hr'.
    now rewrite (Hrest r' Hr').
  - destruct Hin as [Hin|Hin]; [contradiction|].
    destruct (IH Hnd' Hin) as (before & r0 & after & -> & Hid & Hsel & Hdel).
    exists (r :: before), r0, after.
    apply (where_id_false id r) in Hneq. rewrite Hneq. simpl.
    rewrite Hsel, Hdel. now repeat split.
Qed.

Lemma max_rowid_bound (l : list R) (r : R) :
  In r l -> (rowid r <= max_rowid rowid l)%Z.
Proof.
  induction l as [|r' l IH]; simpl; intros Hin; [now destruct Hin|].
  destruct Hin as [->|Hin]; [lia|]. specialize (IH Hin). lia.
Qed.



(** The row an INSERT adds is the only one with its id. *)
Lemma select_inserted (mk : Z -> R) (t : table R) :
  (forall v, rowid (mk v) = v) ->
  let (t', v) := sql_insert rowid mk t in
  sql_select rowid v t' = [mk v] /\ ~ In v (map rowid (rows t)).
Proof.
  intros Hmk. unfold sql_insert, sql_select. simpl.
  set (v := (Z.max (max_rowid rowid (rows t)) (sqlite_sequence t) + 1)%Z).
  assert (Hold : forall r, In r (rows t) -> rowid r <> v).
  { intros r Hin. pose proof (max_rowid_bound _ _ Hin). lia. }
  split.
  - rewrite filter_app. simpl. unfold where_id at 2. rewrite Hmk, Z.eqb_refl.
    rewrite filter_nothing; [reflexivity|].
    intros r Hin. apply where_id_false. now apply Hold.
  - intros Hin. apply in_map_iff in Hin. destruct Hin as (r & Hid & Hin).
    now apply (Hold r Hin).
Qed.

Lemma select_updated (id : Z) (set : R -> R) (t : table R) :
  (forall r, rowid (set r) = rowid r) ->
  forall id',
    sql_select rowid id' (fst (sql_update rowid id set t))
    = map (fun r => if where_id rowid id r then set r else r) (sql_select rowid id' t).
Proof.
  intros Hset id'. unfold sql_select, sql_update. simpl.
  induction (rows t) as [|r l IH]; simpl; [reflexivity|].
  assert (Hsame : where_id rowid id' (if where_id rowid id r then set r else r)
                  = where_id rowid id' r).
  { unfold where_id. destruct (rowid r =? id)%Z; [now rewrite Hset | reflexivity]. }
  rewrite Hsame. destruct (where_id rowid id' r); simpl; now rewrite IH.
Qed.

End TableFacts.

(** * The methods of [DroneDB] *)

Section Store.

Context `{PyFloatRepr}.

Lemma database_eta (db : database) :
  {| flight_logs := flight_logs db; detections := detections db |} = db.
Proof. now destruct db. Qed.

(** *** What each method computes *)

Lemma add_flight_log_eq (timestamp : string) (telemetry_data : telemetry) (db : database) :
  add_flight_log timestamp telemetry_data db =
  match json_dumps telemetry_data with
  | Raise e => (Raise e, db)
  | Ok telemetry_json =>
      let (t, v) := sql_insert fl_id (flight_row timestamp telemetry_json) (flight_logs db) in
      (Ok v, {| flight_logs := t; detections := detections db |})
  end.
Proof.
  unfold add_flight_log, bind, lift, _get_connection.
  now destruct (json_dumps telemetry_data).
Qed.

Lemma get_flight_log_eq (id : Z) (db : database) :
  get_flight_log id db =
  (match sql_select fl_id id (flight_logs db) with
   | [] => Ok None
   | row :: _ => result_bind (flight_log_of_row row) (fun log => Ok (Some log))
   end, db).
Proof.
  unfold get_flight_log, bind, lift, _get_connection, close, ret, fetchone. simpl.
  destruct (sql_select fl_id id (flight_logs db)) as [|row rs]; simpl; [reflexivity|].
  now destruct (flight_log_of_row row).
Qed.

Lemma get_all_flight_logs_eq (db : database) :
  get_all_flight_logs db = (result_map flight_log_of_row (rows (flight_logs db)), db).
Proof. reflexivity. Qed.

Lemma delete_flight_log_eq (id : Z) (db : database) :
  delete_flight_log id db =
  (Ok (Z.of_nat (List.length (sql_select fl_id id (flight_logs db))) >? 0)%Z,
   {| flight_logs := fst (sql_delete fl_id id (flight_logs db));
      detections := detections db |}).
Proof. reflexivity. Qed.

Lemma add_detection_eq timestamp category latitude longitude picture bhp worker change
  (db : database) :
  add_detection timestamp category latitude longitude picture bhp worker change db =
  let (t, v) :=
    sql_insert dt_id
      (detection_row timestamp category latitude longitude picture
         (flag bhp) (flag worker) (flag change))
      (detections db) in
  (Ok v, {| flight_logs := flight_logs db; detections := t |}).
Proof. reflexivity. Qed.

Lemma get_detection_eq (id : Z) (db : database) :
  get_detection id db =
  (Ok (option_map detection_of_row (hd_error (sql_select dt_id id (detections db)))), db).
Proof.
  unfold get_detection, bind, _get_connection, close, ret, fetchone. simpl.
  now destruct (sql_select dt_id id (detections db)).
Qed.

Lemma get_all_detections_eq (db : database) :
  get_all_detections db = (Ok (map detection_of_row (rows (detections db))), db).
Proof. reflexivity. Qed.

Lemma delete_detection_eq (id : Z) (db : database) :
  delete_detection id db =
  (Ok (Z.of_nat (List.length (sql_select dt_id id (detections db))) >? 0)%Z,
   {| flight_logs := flight_logs db;
      detections := fst (sql_delete dt_id id (detections db)) |}).
Proof. reflexivity. Qed.

Lemma py_bool_flag (b : bool) : py_bool (flag b) = b.
Proof. now destruct b. Qed.

Lemma detection_of_row_of_detection (d : detection) :
  detection_of_row (row_of_detection d) = d.
Proof.
  destruct d. unfold detection_of_row, row_of_detection. simpl.
  now rewrite !py_bool_flag.
Qed.

Lemma update_detection_eq (id : Z) timestamp category latitude longitude picture
  bhp worker change (db : database) :
  update_detection id timestamp category latitude longitude picture bhp worker change db =
  match sql_select dt_id id (detections db) with
  | [] => (Ok false, db)
  | row :: rs =>
      let new :=
        merged (detection_of_row row) timestamp category latitude longitude picture
          bhp worker change in
      (Ok (Z.of_nat (List.length (row :: rs)) >? 0)%Z,
       {| flight_logs := flight_logs db;
          detections :=
            fst (sql_update dt_id id
                   (fun r => row_of_detection
                               {| det_id := dt_id r;
                                  det_timestamp := det_timestamp new;
                                  det_category := det_category new;
                                  det_latitude := det_latitude new;
                                  det_longitude := det_longitude new;
                                  det_picture := det_picture new;
                                  det_bhp := det_bhp new;
                                  det_worker := det_worker new;
                                  det_change := det_change new |})
                   (detections db)) |})
  end.
Proof.
  unfold update_detection. unfold bind at 1. rewrite get_detection_eq.
  unfold sql_update. simpl fst.
  destruct (sql_select dt_id id (detections db)) as [|row rs] eqn:Hsel; [reflexivity|].
  unfold bind, _get_connection, commit, close, ret, UPDATE_detections_WHERE_id,
    sql_update, on_detections. simpl.
  change (filter (where_id dt_id id) (rows (detections db)))
    with (sql_select dt_id id (detections db)).
  rewrite Hsel. reflexivity.
Qed.

(** *** Reading a detection back *)

Lemma get_detection_found (id : Z) (db : database) (current : detection) :
  get_detection id db = (Ok (Some current), db) ->
  exists row rs,
    sql_select dt_id id (detections db) = row :: rs /\
    detection_of_row row = current /\ det_id current = id /\
    In row (rows (detections db)).
Proof.
  rewrite get_detection_eq. intros [= Hget].
  destruct (sql_select dt_id id (detections db)) as [|row rs] eqn:Hsel; [discriminate|].
  injection Hget as <-. exists row, rs.
  destruct (select_head_stored _ dt_id id _ row rs Hsel) as [Hin Hid].
  now repeat split.
Qed.


Lemma get_detection_stored (id : Z) (db : database) :
  detection_stored id db ->
  exists current, get_detection id db = (Ok (Some current), db).
Proof.
  intros Hin. rewrite get_detection_eq.
  destruct (select_present _ dt_id id (detections db) Hin) as (r & rs & -> & _).
  now eexists.
Qed.

(** An UPDATE of one id leaves the selection of any other id as it was. *)
Lemma select_other_updated (id id' : Z) (set : detections_row -> detections_row)
  (t : table detections_row) :
  (forall r, dt_id (set r) = dt_id r) ->
  id' <> id ->
  sql_select dt_id id' (fst (sql_update dt_id id set t)) = sql_select dt_id id' t.
Proof.
  intros Hset Hneq. rewrite (select_updated _ dt_id id set t Hset).
  rewrite <- (map_id (sql_select dt_id id' t)) at 2.
  apply map_ext_in. intros r Hin.
  apply filter_In in Hin. destruct Hin as [_ Hid]. apply where_id_true in Hid.
  assert (Hother : where_id dt_id id r = false) by (apply where_id_false; lia).
  now rewrite Hother.
Qed.

(** What [update_detection] does to a stored detection. *)
Lemma update_detection_stored (db : database) (id : Z) (current : detection)
  timestamp category latitude longitude picture bhp worker change :
  get_detection id db = (Ok (Some current), db) ->
  let new := merged current timestamp category latitude longitude picture
               bhp worker change in
  exists db',
    update_detection id timestamp category latitude longitude picture
      bhp worker change db = (Ok true, db') /\
    get_detection id db' = (Ok (Some new), db') /\
    (forall id', id' <> id -> fst (get_detection id' db') = fst (get_detection id' db)) /\
    flight_logs db' = flight_logs db /\
    sqlite_sequence (detections db') = sqlite_sequence (detections db) /\
    rows (detections db')
    = map (fun r => if where_id dt_id id r then row_of_detection new else r)
        (rows (detections db)).
Proof.
  intros Hget new.
  destruct (get_detection_found id db current Hget) as (row & rs & Hsel & Hrow & Hid & Hin).
  rewrite update_detection_eq, Hsel. cbv zeta. rewrite Hrow. fold new.
  set (set := fun r : detections_row => row_of_detection _).
  assert (Hset : forall r, dt_id (set r) = dt_id r) by reflexivity.
  eexists. split; [reflexivity|].
  repeat split.
  - rewrite get_detection_eq. cbn [detections].
    rewrite (select_updated _ dt_id id set (detections db) Hset), Hsel. simpl.
    assert (Hrid : dt_id row = id) by (rewrite <- Hid, <- Hrow; reflexivity).
    assert (Hhit : where_id dt_id id row = true) by now apply where_id_true.
    rewrite Hhit. unfold set. rewrite detection_of_row_of_detection.
    do 3 f_equal. subst new. unfold merged. simpl. rewrite <- Hrow. now simpl.
  - intros id' Hneq. rewrite !get_detection_eq. cbn [detections fst].
    now rewrite (select_other_updated id id' set (detections db) Hset Hneq).
  - simpl. apply map_ext_in. intros r Hr.
    destruct (where_id dt_id id r) eqn:Hhit; [|reflexivity].
    apply where_id_true in Hhit. unfold set, row_of_detection. simpl.
    rewrite Hhit. now rewrite <- Hid.
Qed.

Lemma update_detection_absent (db : database) (id : Z)
  timestamp category latitude longitude picture bhp worker change :
  ~ detection_stored id db ->
  update_detection id timestamp category latitude longitude picture
    bhp worker change db = (Ok false, db).
Proof.
  intros Hout. rewrite update_detection_eq.
  now rewrite (select_absent _ dt_id id (detections db) Hout).
Qed.

End Store.

(** * Sequences of calls *)

Section Traces.

Context `{PyFloatRepr}.

Lemma returning_eq {A} (wrap : A -> value) (c : M database A) (db db' : database)
  (r : result A) :
  c db = (r, db') ->
  returning wrap c db
  = (match r with Ok a => Ok (wrap a) | Raise e => Raise e end, db').
Proof.
  intros Hc. unfold returning, bind, ret. rewrite Hc. now destruct r.
Qed.

Lemma returning_snd {A} (wrap : A -> value) (c : M database A) (db : database) :
  snd (returning wrap c db) = snd (c db).
Proof.
  unfold returning, bind, ret. now destruct (c db) as [[a|e] db'].
Qed.

Lemma run_cons (c : call) (calls : list call) (db : database) :
  run (c :: calls) db
  = ((c, fst (perform c db)) :: fst (run calls (snd (perform c db))),
     snd (run calls (snd (perform c db)))).
Proof.
  simpl. destruct (perform c db) as [r db1]. simpl. now destruct (run calls db1).
Qed.

Lemma bit_flag (b : bool) : bit (flag b).
Proof. destruct b; [now right | now left]. Qed.

Lemma row_of_detection_bits (d : detection) : flags_are_bits (row_of_detection d).
Proof. repeat split; apply bit_flag. Qed.

(** What a call does to the table of flight logs. *)
Lemma perform_flight_logs (c : call) (db : database) :
  (exists timestamp telemetry_data telemetry_json,
      c = Call_add_flight_log timestamp telemetry_data /\
      json_dumps telemetry_data = Ok telemetry_json /\
      let ins := sql_insert fl_id (flight_row timestamp telemetry_json) (flight_logs db) in
      perform c db
      = (Ok (VInt (snd ins)), {| flight_logs := fst ins; detections := detections db |}))
  \/ (exists timestamp telemetry_data e,
      c = Call_add_flight_log timestamp telemetry_data /\
      json_dumps telemetry_data = Raise e /\
      perform c db = (Raise e, db))
  \/ (exists id,
      c = Call_delete_flight_log id /\
      perform c db
      = (Ok (VBool (Z.of_nat (List.length (sql_select fl_id id (flight_logs db))) >? 0)%Z),
         {| flight_logs := fst (sql_delete fl_id id (flight_logs db));
            detections := detections db |}))
  \/ (is_add_flight_log c = false /\
      (forall r, added_flight_log (c, r) = None) /\
      (forall r, is_flight_log_deleted (c, r) = false) /\
      flight_logs (snd (perform c db)) = flight_logs db).
Proof.
  destruct c as [timestamp telemetry_data | id | | id | ? ? ? ? ? ? ? ? | id | | id a | id ].
  - destruct (json_dumps telemetry_data) as [telemetry_json|e] eqn:Hdumps.
    + left. exists timestamp, telemetry_data, telemetry_json. repeat split; [assumption|].
      cbv zeta. unfold perform.
      erewrite returning_eq by (rewrite add_flight_log_eq, Hdumps; reflexivity).
      reflexivity.
    + right. left. exists timestamp, telemetry_data, e. repeat split; [assumption|].
      unfold perform.
      erewrite returning_eq by (rewrite add_flight_log_eq, Hdumps; reflexivity).
      reflexivity.
  - do 3 right. repeat split. unfold perform.
    now erewrite returning_eq by apply get_flight_log_eq.
  - do 3 right. repeat split. unfold perform.
    now erewrite returning_eq by apply get_all_flight_logs_eq.
  - right. right. left. exists id. split; reflexivity.
  - do 3 right. repeat split.
  - do 3 right. repeat split. unfold perform.
    now erewrite returning_eq by apply get_detection_eq.
  - do 3 right. repeat split.
  - do 3 right. repeat split. unfold perform, call_update_detection.
    rewrite returning_snd, update_detection_eq.
    now destruct (sql_select dt_id id (detections db)).
  - do 3 right. repeat split.
Qed.

(** What a call does to the table of detections: it inserts one row, or it
    keeps the counter, drops some rows and rewrites the others in place,
    keeping their ids and leaving flags that are bits as bits. *)
Lemma perform_detections (c : call) (db : database) :
  (exists timestamp category latitude longitude picture bhp worker change,
      c = Call_add_detection timestamp category latitude longitude picture
            bhp worker change /\
      let ins := sql_insert dt_id
                   (detection_row timestamp category latitude longitude picture
                      (flag bhp) (flag worker) (flag change))
                   (detections db) in
      perform c db
      = (Ok (VInt (snd ins)), {| flight_logs := flight_logs db; detections := fst ins |}))
  \/ ((forall r, added_detection (c, r) = None) /\
      sqlite_sequence (detections (snd (perform c db))) = sqlite_sequence (detections db) /\
      exists (f : detections_row -> detections_row) (p : detections_row -> bool),
        rows (detections (snd (perform c db))) = map f (filter p (rows (detections db))) /\
        (forall row, dt_id (f row) = dt_id row) /\
        (forall row, flags_are_bits row -> flags_are_bits (f row))).
Proof.
  assert (Hsame : forall db' : database,
             detections db' = detections db ->
             sqlite_sequence (detections db') = sqlite_sequence (detections db) /\
             exists (f : detections_row -> detections_row) (p : detections_row -> bool),
               rows (detections db') = map f (filter p (rows (detections db))) /\
               (forall row, dt_id (f row) = dt_id row) /\
               (forall row, flags_are_bits row -> flags_are_bits (f row))).
  { intros db' ->. split; [reflexivity|].
    exists (fun row => row), (fun _ => true).
    rewrite filter_everything by reflexivity. rewrite map_id.
    split; [reflexivity | split; [reflexivity | tauto]]. }
  destruct c as [timestamp telemetry_data | id | | id
                | timestamp category latitude longitude picture bhp worker change
                | id | | id a | id ].
  - right. split; [reflexivity|]. apply Hsame.
    destruct (perform_flight_logs (Call_add_flight_log timestamp telemetry_data) db)
      as [(? & ? & ? & _ & _ & ->) | [(? & ? & ? & _ & _ & ->) | [(? & [=] & _) | ([=] & _)]]];
      reflexivity.
  - right. split; [reflexivity|]. apply Hsame. unfold perform.
    now erewrite returning_eq by apply get_flight_log_eq.
  - right. split; [reflexivity|]. apply Hsame. unfold perform.
    now erewrite returning_eq by apply get_all_flight_logs_eq.
  - right. split; [reflexivity|]. now apply Hsame.
  - left. exists timestamp, category, latitude, longitude, picture, bhp, worker, change.
    split; reflexivity.
  - right. split; [reflexivity|]. apply Hsame. unfold perform.
    now erewrite returning_eq by apply get_detection_eq.
  - right. split; [reflexivity|]. now apply Hsame.
  - right. split; [reflexivity|]. unfold perform, call_update_detection.
    rewrite returning_snd, update_detection_eq.
    destruct (sql_select dt_id id (detections db)) as [|row0 rs]; [now apply Hsame|].
    cbn [snd detections]. unfold sql_update. cbn [fst rows sqlite_sequence].
    split; [reflexivity|].
    eexists. exists (fun _ => true).
    rewrite filter_everything by reflexivity.
    split; [reflexivity|]. split; intros row.
    + now destruct (where_id dt_id id row).
    + destruct (where_id dt_id id row); [|tauto].
      intros _. apply row_of_detection_bits.
  - right. split; [reflexivity|]. simpl. split; [reflexivity|].
    exists (fun row => row). eexists.
    rewrite map_id. split; [reflexivity | split; [reflexivity | tauto]].
Qed.

Lemma flight_logs_deleted_cons (e : call * result value) (trace : list (call * result value)) :
  flight_logs_deleted (e :: trace)
  = (if is_flight_log_deleted e then 1 else 0) + flight_logs_deleted trace.
Proof. unfold flight_logs_deleted. simpl. now destruct (is_flight_log_deleted e). Qed.


Lemma flight_log_ids_cons (e : call * result value) (trace : list (call * result value)) :
  flight_log_ids (e :: trace)
  = match added_flight_log e with
    | Some n => n :: flight_log_ids trace
    | None => flight_log_ids trace
    end.
Proof. reflexivity. Qed.


(** *** Counting flight logs *)

Lemma insert_flight_sound (db : database) (timestamp telemetry_json : string)
  (telemetry_data : telemetry) :
  json_dumps telemetry_data = Ok telemetry_json ->
  flights_sound db ->
  let ins := sql_insert fl_id (flight_row timestamp telemetry_json) (flight_logs db) in
  flights_sound {| flight_logs := fst ins; detections := detections db |} /\
  List.length (rows (fst ins)) = S (List.length (rows (flight_logs db))).
Proof.
  intros Hdumps [Hkey Hdec].
  pose proof (select_inserted _ fl_id (flight_row timestamp telemetry_json)
                (flight_logs db) (fun v => eq_refl)) as Hfresh.
  unfold sql_insert in *. cbv zeta. cbn [fst snd rows] in *.
  destruct Hfresh as [_ Hfresh].
  split; [split|].
  - unfold primary_key. cbn [flight_logs rows]. rewrite List.map_app.
    apply NoDup_app; [assumption | repeat constructor; now intros [] |].
    intros a Ha [<-|[]]. now apply Hfresh.
  - cbn [flight_logs rows]. apply Forall_app. split; [assumption|].
    constructor; [|constructor].
    exists (dict telemetry_data). now apply json_loads_dumps.
  - rewrite List.length_app. simpl. lia.
Qed.

Lemma delete_flight_sound (db : database) (id : Z) :
  flights_sound db ->
  let del := sql_delete fl_id id (flight_logs db) in
  let deleted := (Z.of_nat (List.length (sql_select fl_id id (flight_logs db))) >? 0)%Z in
  flights_sound {| flight_logs := fst del; detections := detections db |} /\
  List.length (rows (fst del)) + (if deleted then 1 else 0)
  = List.length (rows (flight_logs db)).
Proof.
  intros [Hkey Hdec]. cbv zeta.
  destruct (in_dec Z.eq_dec id (map fl_id (rows (flight_logs db)))) as [Hin|Hout].
  - destruct (primary_key_split _ fl_id id _ Hkey Hin)
      as (before & r & after & Hrows & Hid & Hsel & Hdel).
    unfold sql_select, sql_delete. cbn [fst rows]. rewrite Hsel, Hdel. simpl.
    split; [split|].
    + unfold primary_key in *. cbn [flight_logs rows]. rewrite Hrows in Hkey.
      rewrite List.map_app in *. simpl in Hkey. now apply NoDup_remove_1 in Hkey.
    + cbn [flight_logs rows]. rewrite Hrows in Hdec.
      apply Forall_app in Hdec. destruct Hdec as [Hb Ha]. inversion Ha; subst.
      apply Forall_app. now split.
    + rewrite Hrows, !List.length_app. simpl. lia.
  - rewrite (delete_absent _ fl_id id _ Hout), (select_absent _ fl_id id _ Hout).
    simpl. rewrite database_eta. split; [now split | lia].
Qed.

Lemma run_flight_log_count (calls : list call) :
  forall db : database,
    flights_sound db ->
    flights_sound (snd (run calls db)) /\
    List.length (rows (flight_logs (snd (run calls db))))
      + flight_logs_deleted (fst (run calls db))
    = List.length (rows (flight_logs db))
      + List.length (flight_log_ids (fst (run calls db))).
Proof.
  induction calls as [|c calls IH]; intros db Hsound.
  - simpl. split; [assumption | reflexivity].
  - rewrite run_cons. cbn [fst snd].
    rewrite flight_logs_deleted_cons, flight_log_ids_cons.
    destruct (perform_flight_logs c db)
      as [(ts & td & text & -> & Hdumps & Hperf)
         | [(ts & td & e & -> & Hdumps & Hperf)
           | [(id & -> & Hperf) | (_ & Hnone & Hkept & Hsame)]]].
    + cbv zeta in Hperf. rewrite Hperf. cbn [fst snd].
      destruct (insert_flight_sound db ts text td Hdumps Hsound) as [Hsound' Hlen].
      destruct (IH _ Hsound') as [Hfinal Hcount].
      split; [assumption|]. cbn [flight_logs] in Hcount.
      cbn -[sql_insert run]. lia.
    + rewrite Hperf. cbn [fst snd].
      destruct (IH _ Hsound) as [Hfinal Hcount].
      split; [assumption|]. cbn -[run]. lia.
    + rewrite Hperf. cbn [fst snd].
      destruct (delete_flight_sound db id Hsound) as [Hsound' Hlen].
      destruct (IH _ Hsound') as [Hfinal Hcount].
      split; [assumption|]. cbn [flight_logs] in Hcount.
      cbn -[sql_delete sql_select run Z.gtb Z.of_nat].
      destruct (Z.of_nat _ >? 0)%Z; lia.
    + rewrite Hnone, Hkept.
      assert (Hsound' : flights_sound (snd (perform c db))).
      { unfold flights_sound. now rewrite Hsame. }
      destruct (IH _ Hsound') as [Hfinal Hcount].
      split; [assumption|]. rewrite Hsame in Hcount. cbn -[run]. lia.
Qed.


Lemma result_map_total {A B} (f : A -> result B) (l : list A) :
  Forall (fun a => exists b, f a = Ok b) l ->
  exists bs, result_map f l = Ok bs /\ List.length bs = List.length l.
Proof.
  induction 1 as [|a l (b & Hb) _ (bs & Hbs & Hlen)]; simpl.
  - now exists [].
  - rewrite Hb, Hbs. simpl. exists (b :: bs). simpl. now rewrite Hlen.
Qed.

Lemma get_all_flight_logs_sound (db : database) :
  flights_sound db ->
  exists logs,
    get_all_flight_logs db = (Ok logs, db) /\
    List.length logs = List.length (rows (flight_logs db)).
Proof.
  intros [_ Hdec]. rewrite get_all_flight_logs_eq.
  destruct (result_map_total flight_log_of_row (rows (flight_logs db)))
    as (logs & Hlogs & Hlen).
  - apply (Forall_impl _ (P := decodable)); [|assumption].
    intros row (td & Htd). unfold flight_log_of_row. rewrite Htd. simpl. now eexists.
  - exists logs. now rewrite Hlogs.
Qed.

(** *** The ids the inserts return *)




Section Covers.

Variable R : Type.
Variable rowid : R -> Z.



End Covers.




(** *** The tables stay as SQLite keeps them *)







End Traces.

(** * The claims *)

Section Claims.

Context `{PyFloatRepr}.

Lemma distinct_NoDup (l : list string) : distinct l = true -> NoDup l.
Proof.
  induction l as [|k l IH]; simpl; intros Hd; constructor;
    apply andb_true_iff in Hd; destruct Hd as [Hk Hl]; [|now apply IH].
  intros Hin. apply negb_true_iff in Hk.
  assert (Hex : existsb (String.eqb k) l = true).
  { apply existsb_exists. exists k. split; [assumption | apply String.eqb_refl]. }
  congruence.
Qed.











Lemma get_detection_pair (id : Z) (db : database) :
  get_detection id db = (fst (get_detection id db), db).
Proof. now rewrite get_detection_eq. Qed.

(** A picture that is set stays set through any updates. *)
Lemma updates_keep_picture (updates : list (Z * update_arguments)) :
  forall (db : database) (id : Z) (current : detection) (p : string),
    get_detection id db = (Ok (Some current), db) ->
    det_picture current = Some p ->
    let db' := snd (run (update_calls updates) db) in
    exists new p',
      get_detection id db' = (Ok (Some new), db') /\ det_picture new = Some p'.
Proof.
  induction updates as [|[id' a] updates IH]; intros db id current p Hget Hpic.
  - now exists current, p.
  - cbv zeta. unfold update_calls. cbn [map fst snd]. rewrite run_cons. cbn [snd].
    fold (update_calls updates).
    assert (Hstep : snd (perform (Call_update_detection id' a) db)
                    = snd (call_update_detection id' a db))
      by (unfold perform; apply returning_snd).
    rewrite Hstep. clear Hstep. unfold call_update_detection.
    destruct (in_dec Z.eq_dec id' (map dt_id (rows (detections db)))) as [Hst|Hout].
    + destruct (get_detection_stored id' db Hst) as (current' & Hget').
      destruct (update_detection_stored db id' current'
                  (parameter (arg_timestamp a)) (parameter (arg_category a))
                  (parameter (arg_latitude a)) (parameter (arg_longitude a))
                  (parameter (arg_picture a)) (parameter (arg_bhp a))
                  (parameter (arg_worker a)) (parameter (arg_change a)) Hget')
        as (db1 & -> & Hnew & Hothers & _).
      cbn [snd]. destruct (Z.eq_dec id id') as [->|Hneq].
      * assert (current' = current) by congruence. subst current'.
        destruct (parameter (arg_picture a)) as [q|] eqn:Hq.
        -- eapply IH; [exact Hnew | reflexivity].
        -- eapply IH; [exact Hnew | exact Hpic].
      * apply (IH db1 id current p); [|assumption].
        rewrite get_detection_pair, (Hothers id Hneq), Hget. reflexivity.
    + rewrite update_detection_absent by assumption. cbn [snd].
      now apply (IH db id current p).
Qed.

(** C10.  [None] is the value of an omitted parameter, so a call that
    passes [None] for a parameter is the call that omits it; for a stored
    id, every field whose parameter is [None] is read back as it was; and a
    picture that is set is still set after any sequence of
    [update_detection] calls, whatever they pass. *)
Theorem update_detection_None_is_omitted :
  (forall T : Type, parameter (@passed T None) = parameter (@omitted T)) /\
  (forall (db : database) (id : Z) (a a' : update_arguments),
      same_binding a a' ->
      call_update_detection id a db = call_update_detection id a' db) /\
  (forall (db : database) (id : Z) (current : detection) (a : update_arguments),
      get_detection id db = (Ok (Some current), db) ->
      exists db' new,
        call_update_detection id a db = (Ok true, db') /\
        get_detection id db' = (Ok (Some new), db') /\
        (parameter (arg_timestamp a) = None -> det_timestamp new = det_timestamp current) /\
        (parameter (arg_category a) = None -> det_category new = det_category current) /\
        (parameter (arg_latitude a) = None -> det_latitude new = det_latitude current) /\
        (parameter (arg_longitude a) = None -> det_longitude new = det_longitude current) /\
        (parameter (arg_picture a) = None -> det_picture new = det_picture current) /\
        (parameter (arg_bhp a) = None -> det_bhp new = det_bhp current) /\
        (parameter (arg_worker a) = None -> det_worker new = det_worker current) /\
        (parameter (arg_change a) = None -> det_change new = det_change current)) /\
  (forall (db : database) (id : Z) (current : detection) (p : string)
          (updates : list (Z * update_arguments)),
      get_detection id db = (Ok (Some current), db) ->
      det_picture current = Some p ->
      exists new p',
        get_detection id (snd (run (update_calls updates) db))
        = (Ok (Some new), snd (run (update_calls updates) db)) /\
        det_picture new = Some p').
Proof.
  split; [reflexivity|]. split; [|split].
  - intros db id a a' (Ht & Hc & Hla & Hlo & Hp & Hb & Hw & Hch).
    unfold call_update_detection. now rewrite Ht, Hc, Hla, Hlo, Hp, Hb, Hw, Hch.
  - intros db id current a Hget. unfold call_update_detection.
    destruct (update_detection_stored db id current
                (parameter (arg_timestamp a)) (parameter (arg_category a))
                (parameter (arg_latitude a)) (parameter (arg_longitude a))
                (parameter (arg_picture a)) (parameter (arg_bhp a))
                (parameter (arg_worker a)) (parameter (arg_change a)) Hget)
      as (db' & Hupd & Hnew & _).
    exists db'. eexists. split; [exact Hupd|]. split; [exact Hnew|].
    unfold merged. cbn.
    repeat split; intros ->; reflexivity.
  - intros db id current p updates. apply updates_keep_picture.
Qed.

End Claims.

(** * More about the methods *)

Section Methods.

Context `{PyFloatRepr}.

Lemma max_rowid_nonneg {R : Type} (rowid : R -> Z) (l : list R) :
  (0 <= max_rowid rowid l)%Z.
Proof. induction l as [|r l IH]; simpl; lia. Qed.

(** The id an INSERT assigns is positive, no row had it, and the row that
    now has it is stored. *)
Lemma insert_new_id {R : Type} (rowid : R -> Z) (mk : Z -> R) (t : table R) :
  (forall v, rowid (mk v) = v) ->
  (0 < snd (sql_insert rowid mk t))%Z /\
  ~ In (snd (sql_insert rowid mk t)) (map rowid (rows t)) /\
  In (snd (sql_insert rowid mk t)) (map rowid (rows (fst (sql_insert rowid mk t)))).
Proof.
  intros Hmk. pose proof (select_inserted _ rowid mk t Hmk) as Hsel.
  pose proof (max_rowid_nonneg rowid (rows t)) as Hmax.
  unfold sql_insert in *. cbn [fst snd rows] in *. destruct Hsel as [_ Hfresh].
  split; [lia|]. split; [exact Hfresh|].
  rewrite List.map_app, List.in_app_iff. right. left. apply Hmk.
Qed.

(** X1.  An id that [add_flight_log] or [add_detection] returns is positive,
    was the id of no row of the table before the call and is the id of a row
    after it, whatever the store held. *)
Theorem added_id_is_positive_and_new (db : database) :
  (forall timestamp telemetry_data id db',
      add_flight_log timestamp telemetry_data db = (Ok id, db') ->
      (0 < id)%Z /\ ~ flight_log_stored id db /\ flight_log_stored id db') /\
  (forall timestamp category latitude longitude picture bhp worker change id db',
      add_detection timestamp category latitude longitude picture bhp worker change db
      = (Ok id, db') ->
      (0 < id)%Z /\ ~ detection_stored id db /\ detection_stored id db').
Proof.
  split.
  - intros timestamp telemetry_data id db'. rewrite add_flight_log_eq.
    destruct (json_dumps telemetry_data) as [text|e]; [|discriminate].
    pose proof (insert_new_id fl_id (flight_row timestamp text) (flight_logs db)
                  (fun v => eq_refl)) as Hnew.
    destruct (sql_insert fl_id (flight_row timestamp text) (flight_logs db)) as [t v].
    intros [= <- <-]. exact Hnew.
  - intros timestamp category latitude longitude picture bhp worker change id db'.
    rewrite add_detection_eq.
    pose proof (insert_new_id dt_id
                  (detection_row timestamp category latitude longitude picture
                     (flag bhp) (flag worker) (flag change))
                  (detections db) (fun v => eq_refl)) as Hnew.
    destruct (sql_insert dt_id _ (detections db)) as [t v].
    intros [= <- <-]. exact Hnew.
Qed.


(** An INSERT leaves the selection of every other id as it was. *)
Lemma select_other_inserted {R : Type} (rowid : R -> Z) (mk : Z -> R) (t : table R)
  (id : Z) :
  (forall v, rowid (mk v) = v) ->
  id <> snd (sql_insert rowid mk t) ->
  sql_select rowid id (fst (sql_insert rowid mk t)) = sql_select rowid id t.
Proof.
  intros Hmk Hneq. unfold sql_insert, sql_select in *. cbn [fst snd rows] in *.
  rewrite filter_app. simpl. unfold where_id at 2. rewrite Hmk.
  destruct (Z.eqb_spec (Z.max (max_rowid rowid (rows t)) (sqlite_sequence t) + 1) id)
    as [Heq|_]; [now destruct Hneq|].
  apply List.app_nil_r.
Qed.



(** *** After a delete *)



Lemma select_other_deleted {R : Type} (rowid : R -> Z) (id id' : Z) (t : table R) :
  id' <> id ->
  sql_select rowid id' (fst (sql_delete rowid id t)) = sql_select rowid id' t.
Proof.
  intros Hneq. unfold sql_select, sql_delete. cbn [fst rows].
  induction (rows t) as [|r l IH]; simpl; [reflexivity|].
  destruct (where_id rowid id r) eqn:Hid; simpl.
  - apply where_id_true in Hid.
    assert (Hno : where_id rowid id' r = false) by (apply where_id_false; lia).
    now rewrite Hno.
  - destruct (where_id rowid id' r); now rewrite IH.
Qed.


Lemma flight_log_of_row_id (row : flight_logs_row) (log : flight_log) :
  flight_log_of_row row = Ok log -> log_id log = fl_id row.
Proof.
  unfold flight_log_of_row. destruct (json_loads (fl_telemetry_data row)); [|discriminate].
  simpl. now intros [= <-].
Qed.



(** *** One record and all records *)




(** *** Updates *)

Lemma if_not_None_twice {T} (x : option T) (y : T) :
  if_not_None x (if_not_None x y) = if_not_None x y.
Proof. now destruct x. Qed.

Lemma merged_twice (current : detection) timestamp category latitude longitude
  picture bhp worker change :
  merged (merged current timestamp category latitude longitude picture bhp worker change)
    timestamp category latitude longitude picture bhp worker change
  = merged current timestamp category latitude longitude picture bhp worker change.
Proof.
  unfold merged. simpl. rewrite !if_not_None_twice. now destruct picture.
Qed.


Lemma update_detection_rewrites (id : Z) timestamp category latitude longitude picture
  bhp worker change (db : database) :
  update_detection id timestamp category latitude longitude picture bhp worker change db =
  match sql_select dt_id id (detections db) with
  | [] => (Ok false, db)
  | row :: _ =>
      (Ok true,
       {| flight_logs := flight_logs db;
          detections :=
            rewritten id
              (row_of_detection
                 (merged (detection_of_row row) timestamp category latitude longitude
                    picture bhp worker change))
              (detections db) |})
  end.
Proof.
  rewrite update_detection_eq.
  destruct (sql_select dt_id id (detections db)) as [|row rs] eqn:Hsel; [reflexivity|].
  destruct (select_head_stored _ dt_id id _ row rs Hsel) as [_ Hid].
  cbv zeta. f_equal. f_equal. unfold sql_update, rewritten. cbn [fst]. f_equal.
  apply map_ext. intros r. destruct (where_id dt_id id r) eqn:Hr; [|reflexivity].
  apply where_id_true in Hr. unfold row_of_detection, merged. cbn.
  now rewrite Hr, Hid.
Qed.

Lemma select_rewritten (id : Z) (new : detections_row) (t : table detections_row) :
  dt_id new = id ->
  sql_select dt_id id (rewritten id new t) = map (fun _ => new) (sql_select dt_id id t).
Proof.
  intros Hnew. unfold sql_select, rewritten. cbn [rows].
  induction (rows t) as [|r l IH]; simpl; [reflexivity|].
  destruct (where_id dt_id id r) eqn:Hr; simpl.
  - assert (Hhit : where_id dt_id id new = true) by now apply where_id_true.
    rewrite Hhit. simpl. now rewrite IH.
  - now rewrite Hr, IH.
Qed.

Lemma rewritten_twice (id : Z) (new : detections_row) (t : table detections_row) :
  dt_id new = id -> rewritten id new (rewritten id new t) = rewritten id new t.
Proof.
  intros Hnew. unfold rewritten. cbn [rows sqlite_sequence]. f_equal.
  rewrite map_map. apply map_ext. intros r.
  destruct (where_id dt_id id r) eqn:Hr; [|now rewrite Hr].
  assert (Hhit : where_id dt_id id new = true) by now apply where_id_true.
  now rewrite Hhit.
Qed.

(** X7.  [update_detection] is idempotent: the same call made a second time
    returns what the first call returned and leaves the store the first
    call left. *)
Theorem update_detection_twice (db : database) (id : Z)
  (timestamp category : option string) (latitude longitude : option finfloat)
  (picture : option string) (bhp worker change : option bool) :
  update_detection id timestamp category latitude longitude picture bhp worker change
    (snd (update_detection id timestamp category latitude longitude picture
            bhp worker change db))
  = update_detection id timestamp category latitude longitude picture bhp worker change db.
Proof.
  rewrite (update_detection_rewrites id timestamp category latitude longitude picture
             bhp worker change db).
  destruct (sql_select dt_id id (detections db)) as [|row rs] eqn:Hsel.
  - cbn [snd]. rewrite update_detection_rewrites. now rewrite Hsel.
  - cbn [snd]. rewrite update_detection_rewrites. cbn [detections flight_logs].
    destruct (select_head_stored _ dt_id id _ row rs Hsel) as [_ Hid].
    set (new := merged (detection_of_row row) timestamp category latitude longitude
                  picture bhp worker change).
    assert (Hnew : dt_id (row_of_detection new) = id) by exact Hid.
    rewrite (select_rewritten id _ (detections db) Hnew), Hsel. cbn [map].
    rewrite detection_of_row_of_detection. unfold new at 1. rewrite merged_twice.
    fold new. now rewrite (rewritten_twice id _ (detections db) Hnew).
Qed.





(** *** Records stay as they were written *)

Lemma stored_of_select {R : Type} (rowid : R -> Z) (id : Z) (t : table R) (r : R)
  (rs : list R) :
  sql_select rowid id t = r :: rs -> In id (map rowid (rows t)).
Proof.
  intros Hsel. destruct (select_head_stored _ rowid id t r rs Hsel) as [Hin <-].
  now apply in_map.
Qed.

Lemma perform_keeps_flight_log (c : call) (db : database) (id : Z) :
  deletes_flight_log id c = false ->
  flight_log_stored id db ->
  sql_select fl_id id (flight_logs (snd (perform c db)))
  = sql_select fl_id id (flight_logs db).
Proof.
  intros Hc Hin.
  destruct (perform_flight_logs c db)
    as [(ts & td & text & -> & Hdumps & Hperf)
       | [(ts & td & e & -> & Hdumps & Hperf)
         | [(id' & -> & Hperf) | (_ & _ & _ & Hsame)]]].
  - cbv zeta in Hperf. rewrite Hperf. cbn [snd flight_logs].
    apply select_other_inserted; [reflexivity|].
    intros ->.
    destruct (insert_new_id fl_id (flight_row ts text) (flight_logs db) (fun v => eq_refl))
      as (_ & Hnew & _).
    now apply Hnew.
  - now rewrite Hperf.
  - rewrite Hperf. cbn [snd flight_logs]. apply select_other_deleted.
    simpl in Hc. apply Z.eqb_neq in Hc. congruence.
  - now rewrite Hsame.
Qed.

Lemma perform_keeps_detection (c : call) (db : database) (id : Z) :
  writes_detection id c = false ->
  detection_stored id db ->
  sql_select dt_id id (detections (snd (perform c db)))
  = sql_select dt_id id (detections db).
Proof.
  intros Hc Hin.
  destruct c as [timestamp telemetry_data | id' | | id'
                | timestamp category latitude longitude picture bhp worker change
                | id' | | id' a | id' ].
  - destruct (perform_flight_logs (Call_add_flight_log timestamp telemetry_data) db)
      as [(? & ? & ? & _ & _ & ->) | [(? & ? & ? & _ & _ & ->) | [(? & [=] & _) | ([=] & _)]]];
      reflexivity.
  - unfold perform. now rewrite returning_snd, get_flight_log_eq.
  - unfold perform. now rewrite returning_snd, get_all_flight_logs_eq.
  - unfold perform. now rewrite returning_snd, delete_flight_log_eq.
  - unfold perform. rewrite returning_snd, add_detection_eq. cbn [snd detections].
    apply select_other_inserted; [reflexivity|].
    intros ->.
    destruct (insert_new_id dt_id
                (detection_row timestamp category latitude longitude picture
                   (flag bhp) (flag worker) (flag change))
                (detections db) (fun v => eq_refl)) as (_ & Hnew & _).
    now apply Hnew.
  - unfold perform. now rewrite returning_snd, get_detection_eq.
  - unfold perform. now rewrite returning_snd, get_all_detections_eq.
  - unfold perform, call_update_detection.
    rewrite returning_snd, update_detection_eq.
    destruct (sql_select dt_id id' (detections db)) as [|row rs]; [reflexivity|].
    cbn [snd detections]. apply select_other_updated; [reflexivity|].
    simpl in Hc. apply Z.eqb_neq in Hc. congruence.
  - unfold perform. rewrite returning_snd, delete_detection_eq. cbn [snd detections].
    apply select_other_deleted. simpl in Hc. apply Z.eqb_neq in Hc. congruence.
Qed.

Lemma run_keeps_flight_log (calls : list call) :
  forall (db : database) (id : Z),
    existsb (deletes_flight_log id) calls = false ->
    flight_log_stored id db ->
    sql_select fl_id id (flight_logs (snd (run calls db)))
    = sql_select fl_id id (flight_logs db).
Proof.
  induction calls as [|c calls IH]; intros db id Hcalls Hin; [reflexivity|].
  simpl in Hcalls. apply orb_false_iff in Hcalls. destruct Hcalls as [Hc Hcalls].
  rewrite run_cons. cbn [snd].
  pose proof (perform_keeps_flight_log c db id Hc Hin) as Hstep.
  rewrite IH; [exact Hstep | exact Hcalls |].
  destruct (select_present _ fl_id id (flight_logs db) Hin) as (r & rs & Hsel & _).
  rewrite Hsel in Hstep. exact (stored_of_select fl_id id _ r rs Hstep).
Qed.

Lemma run_keeps_detection (calls : list call) :
  forall (db : database) (id : Z),
    existsb (writes_detection id) calls = false ->
    detection_stored id db ->
    sql_select dt_id id (detections (snd (run calls db)))
    = sql_select dt_id id (detections db).
Proof.
  induction calls as [|c calls IH]; intros db id Hcalls Hin; [reflexivity|].
  simpl in Hcalls. apply orb_false_iff in Hcalls. destruct Hcalls as [Hc Hcalls].
  rewrite run_cons. cbn [snd].
  pose proof (perform_keeps_detection c db id Hc Hin) as Hstep.
  rewrite IH; [exact Hstep | exact Hcalls |].
  destruct (select_present _ dt_id id (detections db) Hin) as (r & rs & Hsel & _).
  rewrite Hsel in Hstep. exact (stored_of_select dt_id id _ r rs Hstep).
Qed.

(** X10.  A flight log is never changed: whatever [get_flight_log] returns
    for an id, it returns after any sequence of calls that does not delete
    this id, other adds and deletes and all the calls on detections
    included.  In particular a log that [add_flight_log] wrote reads back
    with its timestamp and telemetry until it is deleted. *)
Theorem flight_log_stays_until_deleted (db : database) (id : Z) (calls : list call) :
  existsb (deletes_flight_log id) calls = false ->
  (forall log,
     get_flight_log id db = (Ok (Some log), db) ->
     get_flight_log id (snd (run calls db))
     = (Ok (Some log), snd (run calls db))) /\
  (forall timestamp telemetry_data db0,
     distinct (map fst telemetry_data) = true ->
     add_flight_log timestamp telemetry_data db0 = (Ok id, db) ->
     get_flight_log id (snd (run calls db))
     = (Ok (Some {| log_id := id; log_timestamp := timestamp;
                    log_telemetry_data := telemetry_data |}),
        snd (run calls db))).
Proof.
  intros Hcalls.
  assert (Hstay : forall log,
             get_flight_log id db = (Ok (Some log), db) ->
             get_flight_log id (snd (run calls db))
             = (Ok (Some log), snd (run calls db))).
  { intros log Hget. rewrite get_flight_log_eq in Hget. rewrite get_flight_log_eq.
    destruct (sql_select fl_id id (flight_logs db)) as [|r rs] eqn:Hsel; [discriminate|].
    rewrite (run_keeps_flight_log calls db id Hcalls (stored_of_select fl_id id _ r rs Hsel)).
    rewrite Hsel. injection Hget as Hget. now rewrite Hget. }
  split; [exact Hstay|].
  intros timestamp telemetry_data db0 Hkeys Hadd. apply Hstay.
  rewrite add_flight_log_eq in Hadd.
  destruct (json_dumps telemetry_data) as [text|e] eqn:Hdumps; [|discriminate].
  pose proof (select_inserted _ fl_id (flight_row timestamp text) (flight_logs db0)
                (fun v => eq_refl)) as Hsel.
  destruct (sql_insert fl_id (flight_row timestamp text) (flight_logs db0)) as [t' v].
  cbn [fst snd] in Hadd. injection Hadd as -> <-. destruct Hsel as [Hsel _].
  rewrite get_flight_log_eq. cbn [flight_logs]. rewrite Hsel.
  unfold flight_log_of_row. cbn.
  rewrite (json_loads_dumps telemetry_data text Hdumps).
  now rewrite (dict_distinct telemetry_data (distinct_NoDup _ Hkeys)).
Qed.

(** X11.  A detection changes only through its own id: whatever
    [get_detection] returns for an id, it returns after any sequence of
    calls that neither updates nor deletes this id, updates and deletes of
    other detections and all the calls on flight logs included. *)
Theorem detection_stays_until_written (db : database) (id : Z) (calls : list call)
  (d : detection) :
  existsb (writes_detection id) calls = false ->
  get_detection id db = (Ok (Some d), db) ->
  get_detection id (snd (run calls db)) = (Ok (Some d), snd (run calls db)).
Proof.
  intros Hcalls Hget. rewrite get_detection_eq in Hget. rewrite get_detection_eq.
  injection Hget as Hget. f_equal.
  destruct (sql_select dt_id id (detections db)) as [|r rs] eqn:Hsel; [discriminate|].
  rewrite (run_keeps_detection calls db id Hcalls (stored_of_select dt_id id _ r rs Hsel)).
  rewrite Hsel. now rewrite Hget.
Qed.

(** *** The order of the records *)

Lemma sorted_filter {A} (g : A -> Z) (p : A -> bool) (l : list A) :
  StronglySorted Z.lt (map g l) -> StronglySorted Z.lt (map g (filter p l)).
Proof.
  induction l as [|a l IH]; simpl; intros Hs; [constructor|].
  inversion Hs as [|? ? Hl Ha]; subst.
  destruct (p a); simpl; [|now apply IH].
  constructor; [now apply IH|].
  rewrite Forall_forall in *. intros z Hz. apply Ha.
  apply in_map_iff in Hz. destruct Hz as (r & <- & Hr). apply filter_In in Hr.
  now apply in_map.
Qed.

Lemma sorted_snoc {A} (g : A -> Z) (l : list A) (x : A) :
  StronglySorted Z.lt (map g l) ->
  (forall r, In r l -> (g r < g x)%Z) ->
  StronglySorted Z.lt (map g (l ++ [x])).
Proof.
  induction l as [|a l IH]; simpl; intros Hs Hlt.
  - constructor; constructor.
  - inversion Hs as [|? ? Hl Ha]; subst. constructor.
    + apply IH; [assumption|]. intros r Hr. apply Hlt. now right.
    + rewrite List.map_app. apply Forall_app. split; [assumption|].
      constructor; [|constructor]. apply Hlt. now left.
Qed.

Lemma insert_ascending {R : Type} (rowid : R -> Z) (mk : Z -> R) (t : table R) :
  (forall v, rowid (mk v) = v) ->
  ascending rowid t -> ascending rowid (fst (sql_insert rowid mk t)).
Proof.
  intros Hmk Hs. unfold ascending, sql_insert. cbn [fst rows].
  apply sorted_snoc; [assumption|].
  intros r Hr. rewrite Hmk. pose proof (max_rowid_bound _ rowid (rows t) r Hr). lia.
Qed.

Lemma perform_ascending (c : call) (db : database) :
  ascending fl_id (flight_logs db) /\ ascending dt_id (detections db) ->
  ascending fl_id (flight_logs (snd (perform c db))) /\
  ascending dt_id (detections (snd (perform c db))).
Proof.
  intros [Hfl Hdt]. split.
  - destruct (perform_flight_logs c db)
      as [(ts & td & text & -> & Hdumps & Hperf)
         | [(ts & td & e & -> & Hdumps & Hperf)
           | [(id' & -> & Hperf) | (_ & _ & _ & Hsame)]]].
    + cbv zeta in Hperf. rewrite Hperf. cbn [snd flight_logs].
      now apply insert_ascending.
    + now rewrite Hperf.
    + rewrite Hperf. cbn [snd flight_logs]. unfold ascending, sql_delete. cbn [fst rows].
      now apply sorted_filter.
    + now rewrite Hsame.
  - destruct (perform_detections c db)
      as [(ts & cat & lat & lon & pic & b & w & ch & -> & Hperf)
         | (_ & _ & f & keep & Hrows & Hid & _)].
    + cbv zeta in Hperf. rewrite Hperf. cbn [snd detections].
      now apply insert_ascending.
    + unfold ascending. rewrite Hrows, map_map.
      rewrite (map_ext _ dt_id Hid). now apply sorted_filter.
Qed.

Lemma run_ascending (calls : list call) :
  forall db : database,
    ascending fl_id (flight_logs db) /\ ascending dt_id (detections db) ->
    ascending fl_id (flight_logs (snd (run calls db))) /\
    ascending dt_id (detections (snd (run calls db))).
Proof.
  induction calls as [|c calls IH]; intros db Hs; [assumption|].
  rewrite run_cons. cbn [snd]. apply IH. now apply perform_ascending.
Qed.

Lemma result_map_ids {A B} (f : A -> result B) (g : A -> Z) (h : B -> Z)
  (l : list A) (bs : list B) :
  (forall a b, f a = Ok b -> h b = g a) ->
  result_map f l = Ok bs -> map h bs = map g l.
Proof.
  intros Hid. revert bs. induction l as [|a l IH]; simpl; intros bs Hmap.
  - now injection Hmap as <-.
  - destruct (f a) as [b|] eqn:Hb; [|discriminate].
    destruct (result_map f l) as [bs'|]; [|discriminate].
    simpl in Hmap. injection Hmap as <-. simpl.
    now rewrite (Hid a b Hb), (IH bs' eq_refl).
Qed.

(** X12.  The lists come in the order of the ids.  In a store built from a
    new one through the methods, [get_all_flight_logs] returns the logs and
    [get_all_detections] the detections with strictly increasing ids. *)
Theorem get_all_in_id_order (calls : list call) :
  let db := snd (run calls new_database) in
  (exists logs,
     get_all_flight_logs db = (Ok logs, db) /\
     StronglySorted Z.lt (map log_id logs)) /\
  (exists ds,
     get_all_detections db = (Ok ds, db) /\
     StronglySorted Z.lt (map det_id ds)).
Proof.
  intros db.
  assert (Hnew : ascending fl_id (flight_logs new_database) /\
                 ascending dt_id (detections new_database)) by (split; constructor).
  destruct (run_ascending calls new_database Hnew) as [Hfl Hdt]. fold db in Hfl, Hdt.
  split.
  - assert (Hsound0 : flights_sound new_database) by (split; constructor).
    destruct (run_flight_log_count calls new_database Hsound0) as [Hsound _].
    destruct (get_all_flight_logs_sound _ Hsound) as (logs & Hlogs & _).
    fold db in Hlogs. exists logs. split; [exact Hlogs|].
    rewrite get_all_flight_logs_eq in Hlogs. injection Hlogs as Hlogs.
    now rewrite (result_map_ids flight_log_of_row fl_id log_id _ logs
                   flight_log_of_row_id Hlogs).
  - exists (map detection_of_row (rows (detections db))).
    split; [apply get_all_detections_eq|].
    rewrite map_map. exact Hdt.
Qed.

End Methods.

(** * The test suite *)

Section Tests.

Context `{PyFloatRepr}.

Variable float_eq_int : finfloat -> Z -> bool.
Variable object_eq : pyval -> pyval -> bool.
Variable literal : string -> finfloat.

Lemma and_then_self_db {A B} (c : M database A) (k : A -> T B) (db : database) :
  and_then (self_db c) k db
  = match c db with
    | (Ok a, db') => k a db'
    | (Raise e, db') => (Errors e, db')
    end.
Proof. unfold and_then, self_db. now destruct (c db) as [[a|e] db']. Qed.

Lemma float_eq_refl (x : finfloat) : float_eq x x = true.
Proof. unfold float_eq. now rewrite String.eqb_refl. Qed.

Lemma py_eq_refl (o : pyval) :
  comparable o = true -> py_eq float_eq_int object_eq o o = true.
Proof.
  destruct o as [| b | z | [| | |x] | s | name]; simpl; intros Hc;
    try reflexivity; try discriminate.
  - now destruct b.
  - apply Z.eqb_refl.
  - apply float_eq_refl.
  - apply String.eqb_refl.
Qed.

Lemma list_eq_refl (l : list pyval) :
  forallb comparable l = true -> list_eq float_eq_int object_eq l l = true.
Proof.
  induction l as [|o l IH]; simpl; intros Hc; [reflexivity|].
  apply andb_true_iff in Hc. destruct Hc as [Ho Hl].
  now rewrite (py_eq_refl o Ho), (IH Hl).
Qed.

Lemma dict_get_stored {V} (d : pydict V) (k : string) (v : V) :
  NoDup (map fst d) -> In (k, v) d -> dict_get d k = Some v.
Proof.
  induction d as [|[k' v'] d IH]; simpl; intros Hnd Hin; [now destruct Hin|].
  inversion Hnd as [|? ? Hfresh Hnd']; subst.
  destruct Hin as [[= -> ->] | Hin]; [now rewrite String.eqb_refl|].
  destruct (String.eqb_spec k' k) as [-> | Hneq]; [|now apply IH].
  exfalso. apply Hfresh. change k with (fst (k, v)). now apply in_map.
Qed.

(** A dictionary without NaN is equal to itself, object by object. *)
Lemma dict_eq_refl (d : telemetry) :
  distinct (map fst d) = true ->
  forallb (fun kv => forallb comparable (snd kv)) d = true ->
  dict_eq float_eq_int object_eq d d = true.
Proof.
  intros Hkeys Hc. unfold dict_eq. rewrite Nat.eqb_refl. simpl.
  apply forallb_forall. intros [k v] Hin. simpl.
  rewrite (dict_get_stored d k v (distinct_NoDup _ Hkeys) Hin).
  apply list_eq_refl. rewrite forallb_forall in Hc. exact (Hc (k, v) Hin).
Qed.

(** The tests run on the store that [setUp] makes, which is a new one; the
    sample telemetry has an encoding, which is all the proofs use of it. *)
Ltac new_file file :=
  unfold run_test, setUp;
  replace (_create_tables (remove_if_exists file)) with new_database by now destruct file.

Ltac with_sample sample text Hdumps Hkeys :=
  match goal with
  | |- context [ {| self_sample_telemetry := ?s; self_timestamp := _ |} ] =>
      set (sample := s)
  end;
  assert (Hkeys : distinct (map fst sample) = true) by reflexivity;
  let Hser := fresh "Hser" in
  assert (Hser : serializable_telemetry sample = true) by reflexivity;
  destruct (json_dumps_serializable sample Hser) as (text & Hdumps).

Ltac read_back sample text Hdumps Hkeys :=
  unfold flight_log_of_row;
  cbn [fl_telemetry_data fl_id fl_timestamp flight_row];
  rewrite ?(json_loads_dumps sample text Hdumps);
  rewrite ?(dict_distinct sample (distinct_NoDup _ Hkeys)).

(** X13.  [test_add_get_flight_log] passes: run after [setUp], the method
    returns with no assertion failed and no exception raised, and
    [tearDown] leaves no database file; this for every reading of the clock
    and every content of the test database file before the test. *)
Theorem test_add_get_flight_log_passes (now : string) (file : option database) :
  run_test literal (test_add_get_flight_log float_eq_int object_eq) now file
  = (Returns tt, None).
Proof.
  new_file file. with_sample sample text Hdumps Hkeys.
  assert (Hcmp : forallb (fun kv => forallb comparable (snd kv)) sample = true)
    by reflexivity.
  clearbody sample.
  unfold test_add_get_flight_log. cbn [self_timestamp self_sample_telemetry].
  rewrite and_then_self_db, add_flight_log_eq, Hdumps.
  cbn -[get_flight_log dict_eq]. rewrite and_then_self_db, get_flight_log_eq.
  cbn -[json_loads dict_eq]. read_back sample text Hdumps Hkeys.
  cbn -[dict_eq]. unfold assertEqual. rewrite String.eqb_refl.
  cbn -[dict_eq]. rewrite (dict_eq_refl sample Hkeys Hcmp).
  reflexivity.
Qed.

(** X14.  [test_get_all_flight_logs] passes: run after [setUp], the method
    returns with no assertion failed and no exception raised, and
    [tearDown] leaves no database file; this for every two readings of the
    clock and every content of the test database file before the test. *)
Theorem test_get_all_flight_logs_passes (now timestamp2 : string)
  (file : option database) :
  run_test literal (test_get_all_flight_logs timestamp2) now file = (Returns tt, None).
Proof.
  new_file file. with_sample sample text Hdumps Hkeys. clearbody sample.
  unfold test_get_all_flight_logs. cbn [self_timestamp self_sample_telemetry].
  rewrite and_then_self_db, add_flight_log_eq, Hdumps.
  cbn -[add_flight_log]. rewrite and_then_self_db, add_flight_log_eq, Hdumps.
  cbn -[get_all_flight_logs]. rewrite and_then_self_db, get_all_flight_logs_eq.
  cbn -[json_loads]. read_back sample text Hdumps Hkeys.
  reflexivity.
Qed.

(** X15.  [test_delete_flight_log] passes: run after [setUp], the method
    returns with no assertion failed and no exception raised, and
    [tearDown] leaves no database file; this for every reading of the clock
    and every content of the test database file before the test. *)
Theorem test_delete_flight_log_passes (now : string) (file : option database) :
  run_test literal test_delete_flight_log now file = (Returns tt, None).
Proof.
  new_file file. with_sample sample text Hdumps Hkeys. clearbody sample.
  unfold test_delete_flight_log. cbn [self_timestamp self_sample_telemetry].
  rewrite and_then_self_db, add_flight_log_eq, Hdumps.
  cbn -[get_flight_log]. rewrite and_then_self_db, get_flight_log_eq.
  cbn -[json_loads delete_flight_log]. read_back sample text Hdumps Hkeys.
  cbn -[delete_flight_log]. rewrite and_then_self_db, delete_flight_log_eq.
  cbn -[get_flight_log]. rewrite and_then_self_db, get_flight_log_eq.
  cbn -[delete_flight_log]. rewrite and_then_self_db, delete_flight_log_eq.
  reflexivity.
Qed.

(** X16.  [test_add_get_detection] passes: run after [setUp], the method
    returns with no assertion failed and no exception raised, and
    [tearDown] leaves no database file; this for every reading of the clock
    and every content of the test database file before the test. *)
Theorem test_add_get_detection_passes (now : string) (file : option database) :
  run_test literal (test_add_get_detection literal) now file = (Returns tt, None).
Proof.
  new_file file. unfold test_add_get_detection, assertEqual.
  repeat (progress (cbn -[float_eq String.eqb]; rewrite ?float_eq_refl, ?String.eqb_refl)).
  reflexivity.
Qed.

(** X17.  [test_get_all_detections] passes: run after [setUp], the method
    returns with no assertion failed and no exception raised, and
    [tearDown] leaves no database file; this for every two readings of the
    clock and every content of the test database file before the test. *)
Theorem test_get_all_detections_passes (now timestamp2 : string)
  (file : option database) :
  run_test literal (test_get_all_detections literal timestamp2) now file
  = (Returns tt, None).
Proof. new_file file. reflexivity. Qed.

(** X18.  [test_update_detection] passes: run after [setUp], the method
    returns with no assertion failed and no exception raised, and
    [tearDown] leaves no database file; this for every reading of the clock
    and every content of the test database file before the test. *)
Theorem test_update_detection_passes (now : string) (file : option database) :
  run_test literal (test_update_detection literal) now file = (Returns tt, None).
Proof.
  new_file file. unfold test_update_detection, assertEqual.
  repeat (progress (cbn -[float_eq String.eqb]; rewrite ?float_eq_refl, ?String.eqb_refl)).
  reflexivity.
Qed.

(** X19.  [test_delete_detection] passes: run after [setUp], the method
    returns with no assertion failed and no exception raised, and
    [tearDown] leaves no database file; this for every reading of the clock
    and every content of the test database file before the test. *)
Theorem test_delete_detection_passes (now : string) (file : option database) :
  run_test literal (test_delete_detection literal) now file = (Returns tt, None).
Proof. new_file file. reflexivity. Qed.

(** *** The round trip, under [==] *)






End Tests.

(** * The scenarios, and the claims at concrete inputs *)

(** The first flight log of a new store gets id 1 and reads back exactly. *)
Example scenario_flight_log :
  add_flight_log scenario_timestamp scenario_telemetry new_database
  = (Ok 1%Z, snd (add_flight_log scenario_timestamp scenario_telemetry new_database)) /\
  fst (get_flight_log 1
         (snd (add_flight_log scenario_timestamp scenario_telemetry new_database)))
  = Ok (Some {| log_id := 1; log_timestamp := scenario_timestamp;
                log_telemetry_data := scenario_telemetry |}).
Proof. split; reflexivity. Qed.

(** Two detections; deleting the first leaves the hazard. *)
Example scenario_detections :
  fst (get_all_detections scenario_db)
  = Ok [ {| det_id := 1; det_timestamp := scenario_timestamp; det_category := "Worker";
            det_latitude := F52_1; det_longitude := F21_1;
            det_picture := Some "/path/to/worker.jpg";
            det_bhp := true; det_worker := true; det_change := false |};
         {| det_id := 2; det_timestamp := scenario_timestamp; det_category := "Hazard";
            det_latitude := F52_5; det_longitude := F21_1; det_picture := None;
            det_bhp := false; det_worker := false; det_change := true |} ] /\
  delete_detection 1 scenario_db = (Ok true, scenario_db_deleted) /\
  option_map (map det_category)
    (match fst (get_all_detections scenario_db_deleted) with
     | Ok ds => Some ds
     | Raise _ => None
     end)
  = Some ["Hazard"].
Proof. repeat split. Qed.

(** [update_detection(2, category="Critical Hazard", bhp=False)] changes the
    category and keeps the flags. *)
Example scenario_update :
  call_update_detection 2 critical_hazard scenario_db = (Ok true, scenario_db_updated) /\
  fst (get_detection 2 scenario_db_updated)
  = Ok (Some {| det_id := 2; det_timestamp := scenario_timestamp;
                det_category := "Critical Hazard";
                det_latitude := F52_5; det_longitude := F21_1; det_picture := None;
                det_bhp := false; det_worker := false; det_change := true |}).
Proof. split; reflexivity. Qed.











Lemma update_detection_None_witness :
  get_detection 1 scenario_db
  = (Ok (Some {| det_id := 1; det_timestamp := scenario_timestamp;
                 det_category := "Worker";
                 det_latitude := F52_1; det_longitude := F21_1;
                 det_picture := Some "/path/to/worker.jpg";
                 det_bhp := true; det_worker := true; det_change := false |}),
     scenario_db) /\
  exists new p',
    get_detection 1 (snd (run (update_calls [(1%Z, picture_None)]) scenario_db))
    = (Ok (Some new), snd (run (update_calls [(1%Z, picture_None)]) scenario_db)) /\
    det_picture new = Some p'.
Proof.
  split; [reflexivity|].
  exact (proj2 (proj2 (proj2 update_detection_None_is_omitted))
           scenario_db 1%Z _ "/path/to/worker.jpg" [(1%Z, picture_None)]
           eq_refl eq_refl).
Defined.

(** * The further properties at concrete inputs *)

Lemma added_id_witness :
  add_flight_log scenario_timestamp scenario_telemetry scenario_db
  = (Ok 2%Z, snd (add_flight_log scenario_timestamp scenario_telemetry scenario_db)) /\
  (0 < 2)%Z /\ ~ flight_log_stored 2 scenario_db /\
  flight_log_stored 2
    (snd (add_flight_log scenario_timestamp scenario_telemetry scenario_db)).
Proof.
  split; [reflexivity|].
  exact (proj1 (added_id_is_positive_and_new scenario_db)
           scenario_timestamp scenario_telemetry 2%Z _ eq_refl).
Defined.








Lemma flight_log_stays_witness :
  existsb (deletes_flight_log 1) more_calls = false /\
  get_flight_log 1 scenario_db
  = (Ok (Some {| log_id := 1; log_timestamp := scenario_timestamp;
                 log_telemetry_data := scenario_telemetry |}), scenario_db) /\
  get_flight_log 1 (snd (run more_calls scenario_db))
  = (Ok (Some {| log_id := 1; log_timestamp := scenario_timestamp;
                 log_telemetry_data := scenario_telemetry |}),
     snd (run more_calls scenario_db)).
Proof.
  split; [reflexivity|]. split; [reflexivity|].
  exact (proj1 (flight_log_stays_until_deleted scenario_db 1 more_calls eq_refl)
           _ eq_refl).
Defined.

Lemma detection_stays_witness :
  existsb (writes_detection 1)
    [Call_update_detection 2 critical_hazard; Call_delete_detection 2] = false /\
  get_detection 1
    (snd (run [Call_update_detection 2 critical_hazard; Call_delete_detection 2]
            scenario_db))
  = (Ok (Some {| det_id := 1; det_timestamp := scenario_timestamp;
                 det_category := "Worker";
                 det_latitude := F52_1; det_longitude := F21_1;
                 det_picture := Some "/path/to/worker.jpg";
                 det_bhp := true; det_worker := true; det_change := false |}),
     snd (run [Call_update_detection 2 critical_hazard; Call_delete_detection 2]
            scenario_db)).
Proof.
  split; [reflexivity|].
  exact (detection_stays_until_written scenario_db 1
           [Call_update_detection 2 critical_hazard; Call_delete_detection 2] _
           eq_refl eq_refl).
Defined.

